(** * The NSX-T license resource adapter

    A shallow embedding of [nsxt/resource_nsxt_license.go]: the schema
    declared by [resourceNsxtLicense] and the five entry points
    [resourceNsxtLicenseCreate], [..Read], [..Update], [..Delete] and
    [..Import], followed by the properties the design document states
    about them.

    The Go functions mutate the [*schema.ResourceData] they are handed and
    talk to the NSX manager through the API client.  Both are modelled by
    explicit state: a computation of type [M A] transforms an [Env] holding
    the resource data, the state of the remote manager and the log of the
    API calls issued so far, and either returns a value or panics. *)

From Stdlib Require Import ZArith Ascii String.
From stdpp Require Import base option list strings gmap fin_maps.

Set Warnings "-register-all".

Local Open Scope string_scope.
Local Open Scope Z_scope.

(** ** Go strings: [strings.Split] with a one-byte separator *)

Module strings.

(** [strings.Split(s, sep)] for a separator of one byte: the substrings
    between the occurrences of [sep].  The result never is empty: a
    string without the separator yields the one-element slice [[s]]. *)
Fixpoint Split (s : string) (sep : ascii) : list string :=
  match s with
  | EmptyString => [ EmptyString ]
  | String c s' =>
      if Ascii.eqb c sep then EmptyString :: Split s' sep
      else match Split s' sep with
           | h :: t => String c h :: t
           | [] => [ String c EmptyString ]
           end
  end.

(** The number of occurrences of a byte in a string. *)
Fixpoint Count (s : string) (sep : ascii) : nat :=
  match s with
  | EmptyString => O
  | String c s' => if Ascii.eqb c sep then S (Count s' sep) else Count s' sep
  end.

End strings.

(** ** The plugin SDK: schemas and resource data *)

Module schema.

Inductive ValueType := TypeBool | TypeInt | TypeString | TypeList | TypeSet.

(** The fields of [schema.Schema] the resource fills in. *)
Record Schema := {
  Type_ : ValueType;
  Description : string;
  Required : bool;
  Optional : bool;
  Computed : bool;
}.

(** What [d.Get] hands back as an [interface{}]: [VNil] is the nil
    interface, the others carry their dynamic type. *)
Inductive value :=
| VNil
| VBool (b : bool)
| VInt (n : Z)
| VString (s : string)
| VList (l : list value)
| VObject (kvs : list (string * value)).

Definition has_type (v : value) (t : ValueType) : bool :=
  match v, t with
  | VBool _, TypeBool | VInt _, TypeInt | VString _, TypeString
  | VList _, TypeList | VList _, TypeSet => true
  | _, _ => false
  end.

Definition zero (t : ValueType) : value :=
  match t with
  | TypeBool => VBool false
  | TypeInt => VInt 0
  | TypeString => VString ""
  | TypeList | TypeSet => VList []
  end.

(** [schema.ResourceData]: the identity string, the schema the data was
    created for and the values written so far. *)
Record ResourceData := {
  Id : string;
  fields : gmap string Schema;
  values : gmap string value;
}.

Definition SetId (v : string) (d : ResourceData) : ResourceData :=
  {| Id := v; fields := fields d; values := values d |}.

(** [d.Get(key)]: nil when the schema has no such key, the zero value of
    the declared type when the key was never written. *)
Definition Get (key : string) (d : ResourceData) : value :=
  match fields d !! key with
  | None => VNil
  | Some sch => default (zero (Type_ sch)) (values d !! key)
  end.

(** [d.Set(key, v)]: stores [v] under a declared key of the value's type;
    any other write is refused with an error and changes nothing.  The
    boolean is [true] when the write was refused.  (The SDK's weak
    conversions between primitive types are not modelled: the adapter
    always writes a value of the Go type that corresponds to the field.) *)
Definition Set_ (key : string) (v : value) (d : ResourceData)
  : ResourceData * bool :=
  match fields d !! key with
  | Some sch =>
      if has_type v (Type_ sch)
      then ({| Id := Id d; fields := fields d;
               values := <[key := v]> (values d) |}, false)
      else (d, true)
  | None => (d, true)
  end.

(** [schema.Resource], reduced to its schema map: the five callbacks are
    the functions defined below. *)
Record Resource := { Schema_ : list (string * Schema) }.

End schema.

Export schema.

(** ** [net/http]: the part of a response the adapter looks at *)

Module http.

Definition StatusOK : Z := 200.
Definition StatusNotFound : Z := 404.

Record Response := { StatusCode : Z }.

End http.

(** ** The API client ([go-vmware-nsxt]) *)

Module manager.

(** The message of a non-nil Go [error] returned by the client. *)
Definition cause := string.

Section Types.
(** [common.Tag], [manager.StaticRouteNextHop] and the licence object
    are never inspected by the adapter; [World] is the state of the
    remote manager. *)
Context {Tag NextHop License World : Type}.

(** [manager.StaticRoute], with the fields the adapter reads or writes. *)
Record StaticRoute := {
  Id : string;
  Revision : Z;
  Description : string;
  DisplayName : string;
  Tags : list Tag;
  LogicalRouterId : string;
  Network : string;
  NextHops : list NextHop;
}.

(** The zero value a Go call returns next to an error. *)
Definition StaticRoute_zero : StaticRoute :=
  {| Id := ""; Revision := 0; Description := ""; DisplayName := "";
     Tags := []; LogicalRouterId := ""; Network := ""; NextHops := [] |}.

(** A response pointer may be nil, and so may the error. *)
Definition reply (A : Type) : Type :=
  (A * option http.Response * option cause)%type.

Record LicensingApiService := {
  CreateLicense : World -> reply License * World;
}.

Record LogicalRoutingAndServicesApiService := {
  AddStaticRoute :
    string -> StaticRoute -> World -> reply StaticRoute * World;
  ReadStaticRoute :
    string -> string -> World -> reply StaticRoute * World;
  UpdateStaticRoute :
    string -> string -> StaticRoute -> World -> reply StaticRoute * World;
  DeleteStaticRoute :
    string -> string -> World
    -> (option http.Response * option cause) * World;
}.

(** [*nsxt.APIClient]; its [Context] is passed along unchanged and is
    left out. *)
Record APIClient := {
  LicensingApi : LicensingApiService;
  LogicalRoutingAndServicesApi : LogicalRoutingAndServicesApiService;
}.

(** The calls that reach the remote manager, as they are logged. *)
Inductive Call :=
| CallCreateLicense
| CallAddStaticRoute (logicalRouterID : string) (body : StaticRoute)
| CallReadStaticRoute (logicalRouterID id : string)
| CallUpdateStaticRoute (logicalRouterID id : string) (body : StaticRoute)
| CallDeleteStaticRoute (logicalRouterID id : string).

End Types.

Arguments StaticRoute : clear implicits.
Arguments LicensingApiService : clear implicits.
Arguments LogicalRoutingAndServicesApiService : clear implicits.
Arguments APIClient : clear implicits.
Arguments Call : clear implicits.

End manager.

(** ** Go errors and the error kinds of the design document *)

Inductive arg :=
| AString (s : string)
| AInt (n : Z)
| AError (e : option manager.cause).

(** The adapter builds every error with [fmt.Errorf], except for the one
    that [resourceNotSupportedError] returns.  That function is defined
    outside this file; its error is kept as a value of its own, which the
    design document describes as "operation not supported in this
    configuration". *)
Inductive error :=
| resourceNotSupportedError
| Errorf (format : string) (a : list arg).

Inductive Identifier := ObjectId | ParentId.

Inductive ErrorKind :=
| ClientUnavailable
| MissingIdentifierError (which : Identifier)
| RemoteCallError
| UnexpectedStatusError
| FieldCodecError
| MalformedImportKeyError.

(** Go has one error type; the kinds above are those of the design
    document.  This table lists the messages of the adapter and the kind
    each one stands for. *)
Definition messages : list (string * ErrorKind) :=
  [ ("Error obtaining logical object id", MissingIdentifierError ObjectId);
    ("Error obtaining logical router id during static route read",
      MissingIdentifierError ParentId);
    ("Error obtaining logical router id during static route update",
      MissingIdentifierError ParentId);
    ("Error obtaining logical router id during static route deletion",
      MissingIdentifierError ParentId);
    ("Error during StaticRoute create on router %s: %v", RemoteCallError);
    ("Unexpected status returned during StaticRoute create on router %s: %v",
      UnexpectedStatusError);
    ("Error during StaticRoute read: %v", RemoteCallError);
    ("Error during StaticRoute set in schema: %v", FieldCodecError);
    ("Error during StaticRoute update: %v", RemoteCallError);
    ("Error during StaticRoute delete: %v", RemoteCallError);
    ("Please provide <router-id>/<static-route-id> as an input",
      MalformedImportKeyError) ].

Fixpoint assoc {A} (k : string) (l : list (string * A)) : option A :=
  match l with
  | [] => None
  | (k', v) :: l' => if String.eqb k k' then Some v else assoc k l'
  end.

Definition kind (e : error) : option ErrorKind :=
  match e with
  | resourceNotSupportedError => Some ClientUnavailable
  | Errorf format _ => assoc format messages
  end.

(** ** Package [nsxt]: the resource *)

(** The schema map of [resourceNsxtLicense]. *)
Definition resourceNsxtLicense : schema.Resource :=
  {| Schema_ :=
      [ ("license_key",
          {| Type_ := TypeString; Description := "License Key";
             Required := true; Optional := false; Computed := false |});
        ("accept_eula",
          {| Type_ := TypeBool; Description := "Accept Eula? True of False";
             Required := false; Optional := true; Computed := false |});
        ("capacity_type",
          {| Type_ := TypeString;
             Description :=
               "License metrics specifying the capacity type of license key.";
             Required := false; Optional := false; Computed := true |});
        ("description",
          {| Type_ := TypeString; Description := "License edition";
             Required := false; Optional := false; Computed := true |});
        ("expiry",
          {| Type_ := TypeString;
             Description := "Time to expiry (milliseconds since UNIX epoch)";
             Required := false; Optional := false; Computed := true |});
        ("features",
          {| Type_ := TypeString;
             Description := "Semicolon delimited feature list";
             Required := false; Optional := false; Computed := true |});
        ("is_eval",
          {| Type_ := TypeBool; Description := "True for evalution license";
             Required := false; Optional := false; Computed := true |});
        ("is_expired",
          {| Type_ := TypeBool;
             Description := "Whether the license has expired";
             Required := false; Optional := false; Computed := true |});
        ("is_mh",
          {| Type_ := TypeBool;
             Description := "True for multi-hypervisor support";
             Required := false; Optional := false; Computed := true |});
        ("product_name",
          {| Type_ := TypeString; Description := "Product name";
             Required := false; Optional := false; Computed := true |});
        ("product_version",
          {| Type_ := TypeString; Description := "Product Version";
             Required := false; Optional := false; Computed := true |});
        ("quantity",
          {| Type_ := TypeString;
             Description := "License capacity; 0 for unlimited";
             Required := false; Optional := false; Computed := true |}) ] |}.

(** The keys a resource's schema has, and those it marks as computed. *)
Definition schema_keys (r : schema.Resource) : list string :=
  (Schema_ r).*1.

Definition computed_keys (r : schema.Resource) : list string :=
  (filter (fun p => Computed p.2 = true) (Schema_ r)).*1.

(** The resource data the host creates for a resource: its schema, no
    identity and nothing written. *)
Definition new_ResourceData (r : schema.Resource) : ResourceData :=
  {| schema.Id := ""; fields := list_to_map (Schema_ r); values := ∅ |}.

(** A Go panic, by its cause. *)
Inductive Panic := TypeAssertion | NilDereference | IndexOutOfRange.

Inductive Result (A : Type) :=
| Returned (a : A)
| Panicked (p : Panic).
Arguments Returned {A} a.
Arguments Panicked {A} p.

Section Adapter.

Context {Tag NextHop License World : Type}.

Local Abbreviation StaticRoute := (manager.StaticRoute Tag NextHop).
Local Abbreviation APIClient := (manager.APIClient Tag NextHop License World).
Local Abbreviation Call := (manager.Call Tag NextHop).

(** [nsxtClients], the value behind the [m interface{}] of every entry
    point: [NsxtClient] is a pointer and may be nil. *)
Record nsxtClients := { NsxtClient : option APIClient }.

(** What a running entry point can see and change: the resource data
    behind the pointer [d], the remote manager, and the log of the calls
    made to it. *)
Record Env := {
  data : ResourceData;
  world : World;
  calls : list Call;
}.

Definition M (A : Type) : Type := Env -> Result A * Env.

#[export] Instance M_ret : MRet M := fun A a e => (Returned a, e).

#[export] Instance M_bind : MBind M := fun A B f c e =>
  match c e with
  | (Returned a, e') => f a e'
  | (Panicked p, e') => (Panicked p, e')
  end.

Definition panic {A} (p : Panic) : M A := fun e => (Panicked p, e).

(** *** The accessors of [*schema.ResourceData] *)

Definition d_Id : M string := fun e => (Returned (schema.Id (data e)), e).

Definition d_SetId (v : string) : M unit := fun e =>
  (Returned (), {| data := SetId v (data e); world := world e;
                   calls := calls e |}).

Definition d_Get (key : string) : M value := fun e =>
  (Returned (Get key (data e)), e).

(** The result is the error flag of [d.Set], which no caller in this
    file looks at. *)
Definition d_Set (key : string) (v : value) : M bool := fun e =>
  let '(d', refused) := Set_ key v (data e) in
  (Returned refused, {| data := d'; world := world e; calls := calls e |}).

(** Type assertions [x.(string)], [x.(bool)], [x.(int)]. *)
Definition assert_string (v : value) : M string :=
  match v with VString s => mret s | _ => panic TypeAssertion end.

Definition assert_bool (v : value) : M bool :=
  match v with VBool b => mret b | _ => panic TypeAssertion end.

Definition assert_int (v : value) : M Z :=
  match v with VInt n => mret n | _ => panic TypeAssertion end.

(** [resp.StatusCode] on a response pointer. *)
Definition resp_StatusCode (resp : option http.Response) : M Z :=
  match resp with
  | Some r => mret (http.StatusCode r)
  | None => panic NilDereference
  end.

(** [s[i]] on a slice. *)
Definition index (s : list string) (i : nat) : M string :=
  match s !! i with
  | Some x => mret x
  | None => panic IndexOutOfRange
  end.

(** *** Calls to the remote manager: each one is logged *)

Definition remote {A} (c : Call) (f : World -> A * World) : M A := fun e =>
  let '(a, w') := f (world e) in
  (Returned a, {| data := data e; world := w'; calls := calls e ++ [c] |}).

(** *** The field codecs

    [setTagsInSchema], [getTagsFromSchema], [setNextHopsInSchema] and
    [getNextHopsFromSchema] live in other files of the package.  They are
    handed the resource data only, so they are functions of it: a setter
    yields the data it leaves behind and the error it returns, a getter
    the list it decodes. *)
Variable setTagsInSchema :
  ResourceData -> list Tag -> ResourceData * option manager.cause.
Variable getTagsFromSchema : ResourceData -> list Tag.
Variable setNextHopsInSchema :
  ResourceData -> list NextHop -> ResourceData * option manager.cause.
Variable getNextHopsFromSchema : ResourceData -> list NextHop.

Definition d_codec_set {A} (f : ResourceData -> A -> ResourceData * option manager.cause)
    (x : A) : M (option manager.cause) := fun e =>
  let '(d', err) := f (data e) x in
  (Returned err, {| data := d'; world := world e; calls := calls e |}).

Definition d_codec_get {A} (f : ResourceData -> A) : M A := fun e =>
  (Returned (f (data e)), e).

(** *** The five entry points *)

Definition resourceNsxtLicenseRead (m : nsxtClients) : M (option error) :=
  match NsxtClient m with
  | None => mret (Some resourceNotSupportedError)
  | Some nsxClient =>
    id ← d_Id;
    if decide (id = "")
    then mret (Some (Errorf "Error obtaining logical object id" []))
    else
    logicalRouterID ← d_Get "logical_router_id" ≫= assert_string;
    if decide (logicalRouterID = "")
    then mret (Some (Errorf
           "Error obtaining logical router id during static route read" []))
    else
    '(staticRoute, resp, err) ←
      remote (manager.CallReadStaticRoute logicalRouterID id)
        (manager.ReadStaticRoute (manager.LogicalRoutingAndServicesApi nsxClient)
           logicalRouterID id);
    if decide (http.StatusCode <$> resp = Some http.StatusNotFound)
    then d_SetId "";; mret None
    else
    match err with
    | Some _ =>
        mret (Some (Errorf "Error during StaticRoute read: %v" [AError err]))
    | None =>
        d_Set "revision" (VInt (manager.Revision staticRoute));;
        d_Set "description" (VString (manager.Description staticRoute));;
        d_Set "display_name" (VString (manager.DisplayName staticRoute));;
        d_codec_set setTagsInSchema (manager.Tags staticRoute);;
        d_Set "logical_router_id"
          (VString (manager.LogicalRouterId staticRoute));;
        d_Set "network" (VString (manager.Network staticRoute));;
        err ← d_codec_set setNextHopsInSchema (manager.NextHops staticRoute);
        match err with
        | Some _ =>
            mret (Some (Errorf "Error during StaticRoute set in schema: %v"
                          [AError err]))
        | None => mret None
        end
    end
  end.

(** The body of [resourceNsxtLicenseCreate] uses three identifiers that
    nothing in the function binds: [logicalRouterID], [staticRoute] and the
    receiver [LogicalRoutingAndServicesApi] of the second call.  They are
    parameters here.  The results of that second call are dropped, and the
    two fields read first are not passed on. *)
Definition resourceNsxtLicenseCreate
    (LogicalRoutingAndServicesApi :
       manager.LogicalRoutingAndServicesApiService Tag NextHop World)
    (logicalRouterID : string) (staticRoute : StaticRoute)
    (m : nsxtClients) : M (option error) :=
  match NsxtClient m with
  | None => mret (Some resourceNotSupportedError)
  | Some nsxClient =>
    l ← d_Get "license_key" ≫= assert_string;
    e ← d_Get "accept_eula" ≫= assert_bool;
    '(licenseAndEula, resp, err) ←
      remote manager.CallCreateLicense
        (manager.CreateLicense (manager.LicensingApi nsxClient));
    remote (manager.CallAddStaticRoute logicalRouterID staticRoute)
      (manager.AddStaticRoute LogicalRoutingAndServicesApi
         logicalRouterID staticRoute);;
    match err with
    | Some _ =>
        mret (Some (Errorf "Error during StaticRoute create on router %s: %v"
                      [AString logicalRouterID; AError err]))
    | None =>
        status ← resp_StatusCode resp;
        if decide (status ≠ http.StatusOK)
        then mret (Some (Errorf
               "Unexpected status returned during StaticRoute create on router %s: %v"
               [AString logicalRouterID; AInt status]))
        else
        d_SetId (manager.Id staticRoute);;
        resourceNsxtLicenseRead m
    end
  end.

Definition resourceNsxtLicenseUpdate (m : nsxtClients) : M (option error) :=
  match NsxtClient m with
  | None => mret (Some resourceNotSupportedError)
  | Some nsxClient =>
    id ← d_Id;
    if decide (id = "")
    then mret (Some (Errorf "Error obtaining logical object id" []))
    else
    logicalRouterID ← d_Get "logical_router_id" ≫= assert_string;
    if decide (logicalRouterID = "")
    then mret (Some (Errorf
           "Error obtaining logical router id during static route update" []))
    else
    revision ← d_Get "revision" ≫= assert_int;
    description ← d_Get "description" ≫= assert_string;
    displayName ← d_Get "display_name" ≫= assert_string;
    tags ← d_codec_get getTagsFromSchema;
    network ← d_Get "network" ≫= assert_string;
    nextHops ← d_codec_get getNextHopsFromSchema;
    let staticRoute : StaticRoute :=
      {| manager.Id := "";
         manager.Revision := revision;
         manager.Description := description;
         manager.DisplayName := displayName;
         manager.Tags := tags;
         manager.LogicalRouterId := logicalRouterID;
         manager.Network := network;
         manager.NextHops := nextHops |} in
    '(_, resp, err) ←
      remote (manager.CallUpdateStaticRoute logicalRouterID id staticRoute)
        (manager.UpdateStaticRoute (manager.LogicalRoutingAndServicesApi nsxClient)
           logicalRouterID id staticRoute);
    match err with
    | Some _ =>
        mret (Some (Errorf "Error during StaticRoute update: %v" [AError err]))
    | None =>
        status ← resp_StatusCode resp;
        if decide (status = http.StatusNotFound)
        then mret (Some (Errorf "Error during StaticRoute update: %v"
                           [AError err]))
        else resourceNsxtLicenseRead m
    end
  end.

Definition resourceNsxtLicenseDelete (m : nsxtClients) : M (option error) :=
  match NsxtClient m with
  | None => mret (Some resourceNotSupportedError)
  | Some nsxClient =>
    id ← d_Id;
    if decide (id = "")
    then mret (Some (Errorf "Error obtaining logical object id" []))
    else
    logicalRouterID ← d_Get "logical_router_id" ≫= assert_string;
    if decide (logicalRouterID = "")
    then mret (Some (Errorf
           "Error obtaining logical router id during static route deletion" []))
    else
    '(resp, err) ←
      remote (manager.CallDeleteStaticRoute logicalRouterID id)
        (manager.DeleteStaticRoute (manager.LogicalRoutingAndServicesApi nsxClient)
           logicalRouterID id);
    match err with
    | Some _ =>
        mret (Some (Errorf "Error during StaticRoute delete: %v" [AError err]))
    | None =>
        status ← resp_StatusCode resp;
        (if decide (status = http.StatusNotFound)
         then d_SetId ""
         else mret ());;
        mret None
    end
  end.

(** The importer returns the slice [[]*schema.ResourceData{d}] and a nil
    error, or a nil slice and an error.  The client [m] is not looked at. *)
Definition resourceNsxtLicenseImport (m : nsxtClients)
    : M (option (list ResourceData) * option error) :=
  importID ← d_Id;
  let s := strings.Split importID "/" in
  if decide (length s ≠ 2%nat)
  then mret (None, Some (Errorf
         "Please provide <router-id>/<static-route-id> as an input" []))
  else
  s1 ← index s 1;
  d_SetId s1;;
  s0 ← index s 0;
  d_Set "logical_router_id" (VString s0);;
  d ← (fun e => (Returned (data e), e)) : M ResourceData;
  mret (Some [d], None).

End Adapter.

Arguments nsxtClients : clear implicits.
Arguments Env : clear implicits.
Arguments M : clear implicits.

(** ** A concrete instance: tag pairs, addresses as next hops, and a remote
    manager that answers every call with a fixed reply *)

Module Mock.

Definition Tag : Type := (string * string)%type.
Definition NextHop : Type := string.
Definition License : Type := unit.
Definition World : Type := unit.

Definition encode_tag (t : Tag) : value :=
  VObject [("scope", VString t.1); ("tag", VString t.2)].

Definition decode_tag (v : value) : option Tag :=
  match v with
  | VObject [("scope", VString s); ("tag", VString t)] => Some (s, t)
  | _ => None
  end.

Definition decode_hop (v : value) : option NextHop :=
  match v with
  | VObject [("ip_address", VString a)] => Some a
  | _ => None
  end.

Definition encode_hop (h : NextHop) : value :=
  VObject [("ip_address", VString h)].

(** A setter writes the encoded list with [d.Set] and returns the error of
    that write; a getter decodes what [d.Get] yields. *)
Definition set_list {A} (key : string) (enc : A -> value)
    (d : ResourceData) (l : list A) : ResourceData * option manager.cause :=
  let '(d', refused) := Set_ key (VList (enc <$> l)) d in
  (d', if refused then Some ("Invalid address to set: " +:+ key) else None).

Definition get_list {A} (key : string) (dec : value -> option A)
    (d : ResourceData) : list A :=
  match Get key d with
  | VList l => omap dec l
  | _ => []
  end.

(** Modelled from the spec: [setTagsInSchema], which the repository
    defines outside this file.  The design document has structured list
    fields (tag sets, next-hop lists) go through dedicated field-level
    codecs that convert between the flat schema representation and the
    nested one of the API, a failure naming the field. *)
Definition setTagsInSchema := set_list "tags" encode_tag.

(** Modelled from the spec: [getTagsFromSchema], the decoding direction of
    the tag codec, defined outside this file. *)
Definition getTagsFromSchema := get_list "tags" decode_tag.

(** Modelled from the spec: [setNextHopsInSchema], the codec of the
    next-hop list, defined outside this file; its error is the one Read
    reports for the field. *)
Definition setNextHopsInSchema := set_list "next_hops" encode_hop.

(** Modelled from the spec: [getNextHopsFromSchema], the decoding
    direction of the next-hop codec, defined outside this file. *)
Definition getNextHopsFromSchema := get_list "next_hops" decode_hop.

Abbreviation StaticRoute := (manager.StaticRoute Tag NextHop).
Abbreviation reply := (@manager.reply).

(** A manager without state: every call is answered by the reply given
    for its kind. *)
Definition routing (add read update : manager.reply StaticRoute)
    (delete : option http.Response * option manager.cause)
    : manager.LogicalRoutingAndServicesApiService Tag NextHop World :=
  {| manager.AddStaticRoute := fun _ _ w => (add, w);
     manager.ReadStaticRoute := fun _ _ w => (read, w);
     manager.UpdateStaticRoute := fun _ _ _ w => (update, w);
     manager.DeleteStaticRoute := fun _ _ w => (delete, w) |}.

Definition licensing (create : manager.reply License)
    : manager.LicensingApiService License World :=
  {| manager.CreateLicense := fun w => (create, w) |}.

Definition ok {A} (a : A) : manager.reply A :=
  (a, Some {| http.StatusCode := http.StatusOK |}, None).

Definition status {A} (a : A) (code : Z) (err : option manager.cause)
    : manager.reply A :=
  (a, Some {| http.StatusCode := code |}, err).

Definition route9 : StaticRoute :=
  {| manager.Id := "route9"; manager.Revision := 3;
     manager.Description := "to the lab"; manager.DisplayName := "lab";
     manager.Tags := [("env", "lab")]; manager.LogicalRouterId := "router1";
     manager.Network := "10.0.0.0/24"; manager.NextHops := ["10.0.0.1"] |}.

Definition client (read update : manager.reply StaticRoute)
    (delete : option http.Response * option manager.cause)
    : nsxtClients Tag NextHop License World :=
  {| NsxtClient := Some
       {| manager.LicensingApi := licensing (ok ());
          manager.LogicalRoutingAndServicesApi :=
            routing (ok route9) read update delete |} |}.

Definition no_client : nsxtClients Tag NextHop License World :=
  {| NsxtClient := None |}.

Definition string_field : Schema :=
  {| Type_ := TypeString; Description := ""; Required := false;
     Optional := true; Computed := false |}.

(** The fields the entry points use, next to those of the licence. *)
Definition route_schema : schema.Resource :=
  {| Schema_ :=
       Schema_ resourceNsxtLicense ++
       [ ("logical_router_id", string_field);
         ("revision",
           {| Type_ := TypeInt; Description := ""; Required := false;
              Optional := false; Computed := true |});
         ("display_name", string_field);
         ("network", string_field);
         ("tags",
           {| Type_ := TypeSet; Description := ""; Required := false;
              Optional := true; Computed := false |});
         ("next_hops",
           {| Type_ := TypeList; Description := ""; Required := false;
              Optional := true; Computed := false |}) ] |}.

(** An instance of that schema with identity [id] under router [parent]. *)
Definition instance (id parent : string) : ResourceData :=
  (Set_ "logical_router_id" (VString parent)
     (SetId id (new_ResourceData route_schema))).1.

Definition env (d : ResourceData) : Env Tag NextHop World :=
  {| data := d; world := (); calls := [] |}.

(** A route as a caller builds it before it exists on the manager: no ID
    yet. *)
Definition request : StaticRoute :=
  {| manager.Id := ""; manager.Revision := 0;
     manager.Description := "to the lab"; manager.DisplayName := "lab";
     manager.Tags := [("env", "lab")]; manager.LogicalRouterId := "router1";
     manager.Network := "10.0.0.0/24"; manager.NextHops := ["10.0.0.1"] |}.

(** The entry points at this instance. *)
Definition Read :=
  @resourceNsxtLicenseRead Tag NextHop License World
    setTagsInSchema setNextHopsInSchema.
Definition Update :=
  @resourceNsxtLicenseUpdate Tag NextHop License World
    setTagsInSchema getTagsFromSchema
    setNextHopsInSchema getNextHopsFromSchema.
Definition Delete := @resourceNsxtLicenseDelete Tag NextHop License World.
Definition Create :=
  @resourceNsxtLicenseCreate Tag NextHop License World
    setTagsInSchema setNextHopsInSchema.
Definition Import := @resourceNsxtLicenseImport Tag NextHop License World.

End Mock.

(** ** Frames

    [only_touches keys d d']: [d'] has the identity and the schema of [d]
    and the same value under every key outside [keys]. *)
Definition only_touches (keys : list string) (d d' : ResourceData) : Prop :=
  schema.Id d' = schema.Id d /\
  fields d' = fields d /\
  forall k, k ∉ keys -> values d' !! k = values d !! k.

(** The scalar fields [resourceNsxtLicenseRead] writes with [d.Set], with
    the value each one receives from the route that was fetched. *)
Definition read_scalars {Tag NextHop} (sr : manager.StaticRoute Tag NextHop)
    : list (string * value) :=
  [ ("revision", VInt (manager.Revision sr));
    ("description", VString (manager.Description sr));
    ("display_name", VString (manager.DisplayName sr));
    ("logical_router_id", VString (manager.LogicalRouterId sr));
    ("network", VString (manager.Network sr)) ].

(** Whether a reply carries the status 404. *)
Definition not_found (resp : option http.Response) : Prop :=
  http.StatusCode <$> resp = Some http.StatusNotFound.

(** The payload [resourceNsxtLicenseUpdate] assembles from the instance. *)
Definition update_payload {Tag NextHop}
    (getTagsFromSchema : ResourceData -> list Tag)
    (getNextHopsFromSchema : ResourceData -> list NextHop)
    (d : ResourceData) (logicalRouterID : string) (revision : Z)
    (description displayName network : string)
    : manager.StaticRoute Tag NextHop :=
  {| manager.Id := "";
     manager.Revision := revision;
     manager.Description := description;
     manager.DisplayName := displayName;
     manager.Tags := getTagsFromSchema d;
     manager.LogicalRouterId := logicalRouterID;
     manager.Network := network;
     manager.NextHops := getNextHopsFromSchema d |}.

Definition is_update {Tag NextHop} (c : manager.Call Tag NextHop) : bool :=
  match c with manager.CallUpdateStaticRoute _ _ _ => true | _ => false end.




(** The keys Read writes to: five scalars and the fields of the two
    codecs. *)
Definition read_keys (tags_field next_hops_field : string) : list string :=
  [ "revision"; "description"; "display_name"; tags_field;
    "logical_router_id"; "network"; next_hops_field ].

(** The import keys the design document admits: two components around
    one slash, neither of them empty. *)
Definition two_nonempty_components (key : string) : Prop :=
  exists a b, a ≠ "" /\ b ≠ "" /\ strings.Split key "/" = [a; b].

Definition Import_succeeds {Tag NextHop License World}
    (m : nsxtClients Tag NextHop License World)
    (e : Env Tag NextHop World) : Prop :=
  exists ds e', resourceNsxtLicenseImport m e = (Returned (Some ds, None), e').

(** The fields of a schema a caller may set: those not marked computed. *)
Definition mutable_keys (r : schema.Resource) : list string :=
  (filter (fun p => Computed p.2 = false) (Schema_ r)).*1.

(** Where an error returned by Read comes from: the missing client, one of
    the two identifier checks, the error of the fetch Read has just made,
    or the error of the next-hop codec.  [e] is the state Read starts
    from. *)
Definition Read_failure {Tag NextHop License World}
    (setNextHopsInSchema :
       ResourceData -> list NextHop -> ResourceData * option manager.cause)
    (m : nsxtClients Tag NextHop License World)
    (e : Env Tag NextHop World) (failure : error) : Prop :=
  failure = resourceNotSupportedError \/
  failure = Errorf "Error obtaining logical object id" [] \/
  failure = Errorf
    "Error obtaining logical router id during static route read" [] \/
  (exists c lr sr resp cause w',
     NsxtClient m = Some c /\
     manager.ReadStaticRoute (manager.LogicalRoutingAndServicesApi c)
       lr (schema.Id (data e)) (world e) = ((sr, resp, Some cause), w') /\
     failure = Errorf "Error during StaticRoute read: %v"
                 [AError (Some cause)]) \/
  (exists d hops d' cause,
     setNextHopsInSchema d hops = (d', Some cause) /\
     failure = Errorf "Error during StaticRoute set in schema: %v"
                 [AError (Some cause)]).

(** ** Tactics *)

(** Unfolds the monad and the accessors, leaving the tests of the entry
    point and the replies of the manager to be decided. *)
Ltac unfold_M :=
  cbv [mbind M_bind mret M_ret panic d_Id d_SetId d_Get d_Set d_codec_set
       d_codec_get assert_string assert_bool assert_int resp_StatusCode
       index remote].

(** Decides every test and every reply a computation depends on. *)
Ltac crush := repeat (simplify_eq/=; case_match); simplify_eq/=.

(** Membership in a list of literals, decided by evaluation. *)
Ltac decide_yes := apply (bool_decide_eq_true_1 _); vm_compute; reflexivity.
Ltac decide_no := apply (bool_decide_eq_false_1 _); vm_compute; reflexivity.

(** Membership in a list that shows the element. *)
Ltac in_list :=
  unfold read_keys;
  repeat first [apply list_elem_of_here | apply list_elem_of_further].

(** * Properties of the adapter *)

(** ** [strings.Split] *)

Lemma Split_nonempty s sep : strings.Split s sep ≠ [].
Proof.
  destruct s as [|c s]; simpl; [done|].
  destruct (Ascii.eqb c sep); [done|].
  by destruct (strings.Split s sep).
Qed.

Lemma Split_length s sep :
  length (strings.Split s sep) = S (strings.Count s sep).
Proof.
  induction s as [|c s IH]; simpl; [done|].
  destruct (Ascii.eqb c sep); simpl; [by rewrite IH|].
  destruct (strings.Split s sep) as [|h t] eqn:E; simpl in *; [done|].
  by rewrite <- IH.
Qed.

Lemma Split_single s sep :
  strings.Count s sep = O -> strings.Split s sep = [s].
Proof.
  induction s as [|c s IH]; simpl; [done|].
  destruct (Ascii.eqb c sep); [done|].
  intros H. by rewrite IH.
Qed.

Lemma append_nil (s : string) : "" +:+ s = s.
Proof. reflexivity. Qed.

Lemma append_cons c (s t : string) : String c s +:+ t = String c (s +:+ t).
Proof. reflexivity. Qed.

(** A slice of two components is what a key with exactly one separator
    splits into: the text before it and the text after it. *)
Lemma Split_two s sep a b :
  strings.Split s sep = [a; b] <->
  s = a +:+ String sep b /\ strings.Count a sep = O /\ strings.Count b sep = O.
Proof.
  revert a. induction s as [|c s IH]; intros a; simpl.
  - split; [done|]. intros [E _]. by destruct a.
  - destruct (Ascii.eqb_spec c sep) as [->|Hne].
    + split.
      * intros E. assert (a = "") as -> by congruence.
        assert (strings.Split s sep = [b]) as E' by congruence.
        pose proof (Split_length s sep) as L. rewrite E' in L. simpl in L.
        assert (strings.Count s sep = O) as Hc by lia.
        rewrite (Split_single _ _ Hc) in E'.
        assert (s = b) as -> by congruence.
        by rewrite append_nil.
      * intros (E & Ha & Hb). destruct a as [|c' a].
        -- rewrite append_nil in E. injection E as ->.
           by rewrite (Split_single _ _ Hb).
        -- rewrite append_cons in E. injection E as <- _.
           simpl in Ha. by rewrite Ascii.eqb_refl in Ha.
    + destruct (strings.Split s sep) as [|h t] eqn:E.
      { by destruct (Split_nonempty s sep). }
      split.
      * intros E'. assert (a = String c h) as -> by congruence.
        assert (t = [b]) as -> by congruence.
        destruct (proj1 (IH h) eq_refl) as (-> & Hh & Hb).
        rewrite append_cons. simpl.
        destruct (Ascii.eqb_spec c sep); done.
      * intros (E' & Ha & Hb). destruct a as [|c' a].
        { rewrite append_nil in E'. congruence. }
        rewrite append_cons in E'. injection E' as <- ->.
        simpl in Ha. destruct (Ascii.eqb_spec c sep); [done|].
        pose proof (proj2 (IH a) (conj eq_refl (conj Ha Hb))) as E2.
        injection E2 as -> ->. done.
Qed.

Section Properties.

Context {Tag NextHop License World : Type}.

Variable setTagsInSchema :
  ResourceData -> list Tag -> ResourceData * option manager.cause.
Variable getTagsFromSchema : ResourceData -> list Tag.
Variable setNextHopsInSchema :
  ResourceData -> list NextHop -> ResourceData * option manager.cause.
Variable getNextHopsFromSchema : ResourceData -> list NextHop.

Local Abbreviation Env := (Env Tag NextHop World).
Local Abbreviation nsxtClients := (nsxtClients Tag NextHop License World).
Local Abbreviation APIClient := (manager.APIClient Tag NextHop License World).
Local Abbreviation StaticRoute := (manager.StaticRoute Tag NextHop).

Local Abbreviation Read :=
  (@resourceNsxtLicenseRead Tag NextHop License World
     setTagsInSchema setNextHopsInSchema).
Local Abbreviation Update :=
  (@resourceNsxtLicenseUpdate Tag NextHop License World
     setTagsInSchema getTagsFromSchema
     setNextHopsInSchema getNextHopsFromSchema).
Local Abbreviation Delete :=
  (@resourceNsxtLicenseDelete Tag NextHop License World).
Local Abbreviation Create :=
  (@resourceNsxtLicenseCreate Tag NextHop License World
     setTagsInSchema setNextHopsInSchema).
Local Abbreviation Import :=
  (@resourceNsxtLicenseImport Tag NextHop License World).

(** C2: on an identified instance, a fetch answered by 404 (with or
    without an error next to it) makes Read return success with the ID
    cleared; the schema and every value of the instance are as before, and
    the fetch is the one call made. *)
Theorem Read_not_found (m : nsxtClients) (c : APIClient) (e : Env)
    (lr : string) (sr : StaticRoute) (resp : http.Response)
    (err : option manager.cause) (w' : World) :
  NsxtClient m = Some c ->
  schema.Id (data e) ≠ "" ->
  Get "logical_router_id" (data e) = VString lr ->
  lr ≠ "" ->
  manager.ReadStaticRoute (manager.LogicalRoutingAndServicesApi c)
    lr (schema.Id (data e)) (world e) = ((sr, Some resp, err), w') ->
  http.StatusCode resp = http.StatusNotFound ->
  exists e',
    Read m e = (Returned None, e') /\
    schema.Id (data e') = "" /\
    fields (data e') = fields (data e) /\
    values (data e') = values (data e) /\
    calls e' =
      (calls e ++ [manager.CallReadStaticRoute lr (schema.Id (data e))])%list.
Proof.
  intros Hc Hid Hget Hlr Hcall H404.
  unfold resourceNsxtLicenseRead. rewrite Hc. unfold_M.
  destruct (decide (schema.Id (data e) = "")) as [|_]; [done|].
  rewrite Hget.
  destruct (decide (lr = "")) as [|_]; [done|].
  rewrite Hcall. simpl. rewrite H404.
  destruct (decide _) as [_|N]; [|done].
  eexists. split; [reflexivity|]. done.
Qed.

(** *** Missing identifiers *)


(** *** No client *)

(** C5, as the code has it: without a client Create, Read, Update and
    Delete return the not-supported error and touch nothing, so no call
    reaches the manager; Import never looks at the client, and does the
    same whatever it is. *)
Theorem no_client_fails api (logicalRouterID : string) (staticRoute : StaticRoute)
    (m : nsxtClients) (e : Env) :
  let none : nsxtClients := {| NsxtClient := None |} in
  kind resourceNotSupportedError = Some ClientUnavailable /\
  Create api logicalRouterID staticRoute none e
    = (Returned (Some resourceNotSupportedError), e) /\
  Read none e = (Returned (Some resourceNotSupportedError), e) /\
  Update none e = (Returned (Some resourceNotSupportedError), e) /\
  Delete none e = (Returned (Some resourceNotSupportedError), e) /\
  Import none e = Import m e.
Proof. repeat split. Qed.

(** *** What Read does to the call log and to the identity *)

(** Read issues at most one call, a fetch. *)
Lemma Read_calls (m : nsxtClients) (e e' : Env) r :
  Read m e = (r, e') ->
  calls e' = calls e \/
  exists lr id, calls e' = (calls e ++ [manager.CallReadStaticRoute lr id])%list.
Proof.
  unfold resourceNsxtLicenseRead. unfold_M. intros H.
  crush; eauto.
Qed.

(** *** Frames of the writes *)

Lemma only_touches_refl keys d : only_touches keys d d.
Proof. done. Qed.

Lemma only_touches_trans keys d1 d2 d3 :
  only_touches keys d1 d2 -> only_touches keys d2 d3 ->
  only_touches keys d1 d3.
Proof.
  intros (I1 & F1 & V1) (I2 & F2 & V2). repeat split; [congruence..|].
  intros k Hk. by rewrite V2, V1.
Qed.

Lemma only_touches_weaken keys keys' d d' :
  keys ⊆ keys' -> only_touches keys d d' -> only_touches keys' d d'.
Proof.
  intros Hsub (I & F & V). repeat split; [done..|].
  intros k Hk. apply V. intros Hin. apply Hk, Hsub, Hin.
Qed.

Lemma Set_only_touches key v d : only_touches [key] d (Set_ key v d).1.
Proof.
  unfold Set_. repeat case_match; simpl; try apply only_touches_refl.
  repeat split. simpl. intros k Hk. apply lookup_insert_ne.
  intros ->. apply Hk. by left.
Qed.


(** A write that is accepted is read back. *)
Lemma Set_accepted key v d sch :
  fields d !! key = Some sch -> has_type v (Type_ sch) = true ->
  values (Set_ key v d).1 !! key = Some v.
Proof.
  intros Hf Ht. unfold Set_. rewrite Hf, Ht. simpl. apply lookup_insert_eq.
Qed.

(** The fields the codecs own.  Whatever they do, they keep to them. *)
Variables tags_field next_hops_field : string.

Hypothesis tags_frame :
  forall d t, only_touches [tags_field] d (setTagsInSchema d t).1.
Hypothesis next_hops_frame :
  forall d h, only_touches [next_hops_field] d (setNextHopsInSchema d h).1.



Local Abbreviation keys := (read_keys tags_field next_hops_field).


(** *** The identity across the entry points *)







(** *** What a successful Read writes *)

(** The path of Read up to its fetch, and what it does on each reply. *)
Lemma Read_unfold (m : nsxtClients) (c : APIClient) (e : Env) (lr : string) :
  NsxtClient m = Some c ->
  schema.Id (data e) ≠ "" ->
  Get "logical_router_id" (data e) = VString lr ->
  lr ≠ "" ->
  let '((sr, resp, err), w') :=
    manager.ReadStaticRoute (manager.LogicalRoutingAndServicesApi c)
      lr (schema.Id (data e)) (world e) in
  let log :=
    (calls e ++ [manager.CallReadStaticRoute lr (schema.Id (data e))])%list in
  Read m e =
    if decide (not_found resp)
    then (Returned None,
          {| data := SetId "" (data e); world := w'; calls := log |})
    else
      match err with
      | Some _ =>
          (Returned (Some (Errorf "Error during StaticRoute read: %v"
                             [AError err])),
           {| data := data e; world := w'; calls := log |})
      | None =>
          let d1 := (Set_ "revision" (VInt (manager.Revision sr)) (data e)).1 in
          let d2 := (Set_ "description" (VString (manager.Description sr)) d1).1 in
          let d3 := (Set_ "display_name" (VString (manager.DisplayName sr)) d2).1 in
          let d4 := (setTagsInSchema d3 (manager.Tags sr)).1 in
          let d5 := (Set_ "logical_router_id"
                       (VString (manager.LogicalRouterId sr)) d4).1 in
          let d6 := (Set_ "network" (VString (manager.Network sr)) d5).1 in
          let '(d7, failed) := setNextHopsInSchema d6 (manager.NextHops sr) in
          (Returned
             (if failed is Some _
              then Some (Errorf "Error during StaticRoute set in schema: %v"
                           [AError failed])
              else None),
           {| data := d7; world := w'; calls := log |})
      end.
Proof.
  intros Hc Hid Hget Hlr.
  unfold resourceNsxtLicenseRead, not_found. rewrite Hc. unfold_M.
  destruct (decide (schema.Id (data e) = "")) as [|_]; [done|].
  rewrite Hget. destruct (decide (lr = "")) as [|_]; [done|].
  destruct (manager.ReadStaticRoute _ _ _ _) as [[[sr resp] err] w'].
  simpl. destruct (decide _); [done|].
  destruct err as [cause|]; [done|].
  destruct (Set_ "revision" _ _) as [d1 b1]. simpl.
  destruct (Set_ "description" _ _) as [d2 b2]. simpl.
  destruct (Set_ "display_name" _ _) as [d3 b3]. simpl.
  destruct (setTagsInSchema _ _) as [d4 o4]. simpl.
  destruct (Set_ "logical_router_id" _ _) as [d5 b5]. simpl.
  destruct (Set_ "network" _ _) as [d6 b6]. simpl.
  destruct (setNextHopsInSchema _ _) as [d7 o7]. simpl.
  by destruct o7.
Qed.

Lemma computed_keys_schema (r : schema.Resource) k :
  k ∈ computed_keys r -> k ∈ schema_keys r.
Proof.
  unfold computed_keys, schema_keys.
  intros (p & -> & Hp)%list_elem_of_fmap. apply list_elem_of_fmap.
  exists p. split; [done|]. by apply list_elem_of_filter in Hp as [_ ?].
Qed.

Lemma Set_spec key v d d' refused :
  Set_ key v d = (d', refused) ->
  only_touches [key] d d' /\
  forall sch, fields d !! key = Some sch -> has_type v (Type_ sch) = true ->
    values d' !! key = Some v.
Proof.
  intros E. split.
  - pose proof (Set_only_touches key v d) as H. by rewrite E in H.
  - intros sch Hf Ht. pose proof (Set_accepted key v d sch Hf Ht) as H.
    by rewrite E in H.
Qed.

Lemma only_touches_other key k d d' :
  only_touches [key] d d' -> k ≠ key -> values d' !! k = values d !! k.
Proof. intros (_ & _ & V) Hne. apply V. by intros ->%list_elem_of_singleton. Qed.

Lemma only_touches_fields keys' d d' :
  only_touches keys' d d' -> fields d' = fields d.
Proof. by intros (_ & F & _). Qed.

(** C10: when the fetch succeeds (no error, no 404), Read performs seven
    writes and returns: it sets [revision], [description] and
    [display_name], has the tag codec write the tags of the route that was
    fetched, sets [logical_router_id] and [network], and has the next-hop
    codec write the next hops of that route; it returns the error of that
    last codec under its own message, or nil.  Nothing outside these seven
    fields changes; each of the five scalars the instance has a field for
    holds the value of the route, the tag field holds what the tag codec
    wrote and the next-hop field what the next-hop codec left.  Of the
    seven only [description] is in the schema of the licence resource, and
    the other nine computed fields of that schema keep their values. *)
Theorem Read_overwrites (m : nsxtClients) (c : APIClient) (e : Env)
    (lr : string) (sr : StaticRoute) (resp : option http.Response)
    (w' : World) :
  NsxtClient m = Some c ->
  schema.Id (data e) ≠ "" ->
  Get "logical_router_id" (data e) = VString lr ->
  lr ≠ "" ->
  manager.ReadStaticRoute (manager.LogicalRoutingAndServicesApi c)
    lr (schema.Id (data e)) (world e) = ((sr, resp, None), w') ->
  ~ not_found resp ->
  tags_field ∉
    (schema_keys resourceNsxtLicense ++ (read_scalars sr).*1)%list ->
  next_hops_field ∉
    (schema_keys resourceNsxtLicense ++ (read_scalars sr).*1)%list ->
  tags_field ≠ next_hops_field ->
  let d3 :=
    (Set_ "display_name" (VString (manager.DisplayName sr))
       (Set_ "description" (VString (manager.Description sr))
          (Set_ "revision" (VInt (manager.Revision sr)) (data e)).1).1).1 in
  let d4 := (setTagsInSchema d3 (manager.Tags sr)).1 in
  let d6 :=
    (Set_ "network" (VString (manager.Network sr))
       (Set_ "logical_router_id" (VString (manager.LogicalRouterId sr))
          d4).1).1 in
  let written := setNextHopsInSchema d6 (manager.NextHops sr) in
  let d' := written.1 in
  Read m e =
    (Returned (if written.2 is Some _
               then Some (Errorf "Error during StaticRoute set in schema: %v"
                            [AError written.2])
               else None),
     {| data := d'; world := w';
        calls := (calls e ++
          [manager.CallReadStaticRoute lr (schema.Id (data e))])%list |}) /\
  only_touches keys (data e) d' /\
  (forall k v sch, (k, v) ∈ read_scalars sr ->
     fields (data e) !! k = Some sch -> has_type v (Type_ sch) = true ->
     values d' !! k = Some v) /\
  values d' !! tags_field = values d4 !! tags_field /\
  (forall k, k ∈ keys ->
     k ∈ schema_keys resourceNsxtLicense <-> k = "description") /\
  computed_keys resourceNsxtLicense =
    [ "capacity_type"; "description"; "expiry"; "features"; "is_eval";
      "is_expired"; "is_mh"; "product_name"; "product_version";
      "quantity" ] /\
  (forall k, k ∈ computed_keys resourceNsxtLicense -> k ≠ "description" ->
     values d' !! k = values (data e) !! k).
Proof.
  intros Hc Hid Hget Hlr Hcall H404 Ht Hh Hth d3 d4 d6 written d'.
  assert (forall k, k ∈ keys ->
            k ∈ schema_keys resourceNsxtLicense <-> k = "description") as Hkeys.
  { intros k Hk. unfold read_keys in Hk. split.
    - intros Hin. apply not_elem_of_app in Ht as [Ht _].
      apply not_elem_of_app in Hh as [Hh _].
      repeat (apply elem_of_cons in Hk as [->|Hk]); try done;
        try (exfalso; revert Hin; decide_no).
      by apply elem_of_nil in Hk.
    - intros ->. decide_yes. }
  assert (tags_field ∉ (read_scalars sr).*1) as Ht'
    by (intros ?; apply Ht, elem_of_app; by right).
  assert (next_hops_field ∉ (read_scalars sr).*1) as Hh'
    by (intros ?; apply Hh, elem_of_app; by right).
  simpl in Ht', Hh'.
  repeat (apply not_elem_of_cons in Ht' as [? Ht']).
  repeat (apply not_elem_of_cons in Hh' as [? Hh']).
  (* the seven writes, one after the other *)
  set (d1 := (Set_ "revision" (VInt (manager.Revision sr)) (data e)).1).
  set (d2 := (Set_ "description" (VString (manager.Description sr)) d1).1).
  set (d5 := (Set_ "logical_router_id"
                (VString (manager.LogicalRouterId sr)) d4).1).
  assert (only_touches ["revision"] (data e) d1 /\
          forall sch, fields (data e) !! "revision" = Some sch ->
            has_type (VInt (manager.Revision sr)) (Type_ sch) = true ->
            values d1 !! "revision" = Some (VInt (manager.Revision sr)))
    as [T1 A1] by (split; [apply Set_only_touches|apply Set_accepted]).
  assert (only_touches ["description"] d1 d2 /\
          forall sch, fields d1 !! "description" = Some sch ->
            has_type (VString (manager.Description sr)) (Type_ sch) = true ->
            values d2 !! "description"
              = Some (VString (manager.Description sr)))
    as [T2 A2] by (split; [apply Set_only_touches|apply Set_accepted]).
  assert (only_touches ["display_name"] d2 d3 /\
          forall sch, fields d2 !! "display_name" = Some sch ->
            has_type (VString (manager.DisplayName sr)) (Type_ sch) = true ->
            values d3 !! "display_name"
              = Some (VString (manager.DisplayName sr)))
    as [T3 A3] by (split; [apply Set_only_touches|apply Set_accepted]).
  pose proof (tags_frame d3 (manager.Tags sr)) as T4. fold d4 in T4.
  assert (only_touches ["logical_router_id"] d4 d5 /\
          forall sch, fields d4 !! "logical_router_id" = Some sch ->
            has_type (VString (manager.LogicalRouterId sr)) (Type_ sch) = true ->
            values d5 !! "logical_router_id"
              = Some (VString (manager.LogicalRouterId sr)))
    as [T5 A5] by (split; [apply Set_only_touches|apply Set_accepted]).
  assert (only_touches ["network"] d5 d6 /\
          forall sch, fields d5 !! "network" = Some sch ->
            has_type (VString (manager.Network sr)) (Type_ sch) = true ->
            values d6 !! "network" = Some (VString (manager.Network sr)))
    as [T6 A6] by (split; [apply Set_only_touches|apply Set_accepted]).
  pose proof (next_hops_frame d6 (manager.NextHops sr)) as T7.
  fold written in T7. fold d' in T7.
  pose proof (only_touches_fields _ _ _ T1) as F1.
  pose proof (only_touches_fields _ _ _ T2) as F2.
  pose proof (only_touches_fields _ _ _ T3) as F3.
  pose proof (only_touches_fields _ _ _ T4) as F4.
  pose proof (only_touches_fields _ _ _ T5) as F5.
  pose proof (only_touches_fields _ _ _ T6) as F6.
  assert (forall k key d0 d0', only_touches [key] d0 d0' -> k ≠ key ->
            values d0' !! k = values d0 !! k) as Hoth
    by (intros; by eapply only_touches_other).
  assert (only_touches keys (data e) d') as Hfr.
  { assert (forall key d0 d0', key ∈ keys -> only_touches [key] d0 d0' ->
              only_touches keys d0 d0') as W.
    { intros key d0 d0' Hin. apply only_touches_weaken.
      by intros ? ->%list_elem_of_singleton. }
    apply W in T1; [|in_list]. apply W in T2; [|in_list].
    apply W in T3; [|in_list]. apply W in T4; [|in_list].
    apply W in T5; [|in_list]. apply W in T6; [|in_list].
    apply W in T7; [|in_list].
    exact (only_touches_trans _ _ _ _ T1
            (only_touches_trans _ _ _ _ T2
              (only_touches_trans _ _ _ _ T3
                (only_touches_trans _ _ _ _ T4
                  (only_touches_trans _ _ _ _ T5
                    (only_touches_trans _ _ _ _ T6 T7)))))). }
  split_and!; [| exact Hfr | | | exact Hkeys | by vm_compute |].
  - pose proof (Read_unfold m c e lr Hc Hid Hget Hlr) as HR.
    rewrite Hcall in HR. cbv zeta in HR.
    destruct (decide (not_found resp)); [done|].
    rewrite HR. subst d' written d6 d5 d4 d3 d2 d1.
    by destruct (setNextHopsInSchema _ _) as [d7 [cause|]].
  - intros k v sch Hin Hf Hty.
    unfold read_scalars in Hin.
    repeat (apply elem_of_cons in Hin as [[= -> ->]|Hin]);
      [..|by apply elem_of_nil in Hin].
    + rewrite (Hoth _ _ _ _ T7), (Hoth _ _ _ _ T6), (Hoth _ _ _ _ T5),
        (Hoth _ _ _ _ T4), (Hoth _ _ _ _ T3), (Hoth _ _ _ _ T2);
        [by eapply A1|first [done|congruence]..].
    + rewrite (Hoth _ _ _ _ T7), (Hoth _ _ _ _ T6), (Hoth _ _ _ _ T5),
        (Hoth _ _ _ _ T4), (Hoth _ _ _ _ T3);
        [eapply A2; [|done]; congruence|first [done|congruence]..].
    + rewrite (Hoth _ _ _ _ T7), (Hoth _ _ _ _ T6), (Hoth _ _ _ _ T5),
        (Hoth _ _ _ _ T4);
        [eapply A3; [|done]; congruence|first [done|congruence]..].
    + rewrite (Hoth _ _ _ _ T7), (Hoth _ _ _ _ T6);
        [eapply A5; [|done]; congruence|first [done|congruence]..].
    + rewrite (Hoth _ _ _ _ T7);
        [eapply A6; [|done]; congruence|first [done|congruence]..].
  - rewrite (Hoth _ _ _ _ T7), (Hoth _ _ _ _ T6), (Hoth _ _ _ _ T5);
      [done|first [done|congruence]..].
  - intros k Hk Hne. destruct Hfr as (_ & _ & V). apply V. intros Hin.
    apply Hne, Hkeys; [done|]. by apply computed_keys_schema.
Qed.

(** *** Update *)

(** Up to its remote call Update only reads: on an identified instance
    whose scalar fields have their types it issues the update call with
    the payload assembled from the instance, and what follows depends on
    the reply alone. *)
Lemma Update_unfold (m : nsxtClients) (c : APIClient) (e : Env)
    (lr : string) (rev : Z) (desc dn net : string) :
  NsxtClient m = Some c ->
  schema.Id (data e) ≠ "" ->
  Get "logical_router_id" (data e) = VString lr ->
  lr ≠ "" ->
  Get "revision" (data e) = VInt rev ->
  Get "description" (data e) = VString desc ->
  Get "display_name" (data e) = VString dn ->
  Get "network" (data e) = VString net ->
  let payload :=
    update_payload getTagsFromSchema getNextHopsFromSchema
      (data e) lr rev desc dn net in
  let '((_, resp, err), w') :=
    manager.UpdateStaticRoute (manager.LogicalRoutingAndServicesApi c)
      lr (schema.Id (data e)) payload (world e) in
  let e1 : Env :=
    {| data := data e; world := w';
       calls := calls e ++
         [manager.CallUpdateStaticRoute lr (schema.Id (data e)) payload] |} in
  Update m e =
    match err, resp with
    | Some _, _ =>
        (Returned (Some (Errorf "Error during StaticRoute update: %v"
                           [AError err])), e1)
    | None, None => (Panicked NilDereference, e1)
    | None, Some r =>
        if decide (http.StatusCode r = http.StatusNotFound)
        then (Returned (Some (Errorf "Error during StaticRoute update: %v"
                                [AError None])), e1)
        else Read m e1
    end.
Proof.
  intros Hc Hid Hget Hlr Hrev Hdesc Hdn Hnet payload.
  unfold resourceNsxtLicenseUpdate. rewrite Hc. unfold_M.
  destruct (decide (schema.Id (data e) = "")) as [|_]; [done|].
  rewrite Hget. destruct (decide (lr = "")) as [|_]; [done|].
  rewrite Hrev, Hdesc, Hdn, Hnet. fold payload.
  change (manager.UpdateStaticRoute _ lr _ _ _) with
    (manager.UpdateStaticRoute (manager.LogicalRoutingAndServicesApi c)
       lr (schema.Id (data e)) payload (world e)).
  destruct (manager.UpdateStaticRoute _ _ _ _ _) as [[[sr resp] err] w'].
  simpl. destruct err as [cause|]; [done|].
  destruct resp as [r|]; [|done]. simpl.
  by destruct (decide _).
Qed.

(** C4: on an identified instance, an update call answered by 404 makes
    Update fail with a remote-call error; the instance, its ID included,
    is left as it was, and no Read follows. *)
Theorem Update_not_found (m : nsxtClients) (c : APIClient) (e : Env)
    (lr : string) (rev : Z) (desc dn net : string)
    (sr : StaticRoute) (resp : http.Response) (err : option manager.cause)
    (w' : World) :
  NsxtClient m = Some c ->
  schema.Id (data e) ≠ "" ->
  Get "logical_router_id" (data e) = VString lr ->
  lr ≠ "" ->
  Get "revision" (data e) = VInt rev ->
  Get "description" (data e) = VString desc ->
  Get "display_name" (data e) = VString dn ->
  Get "network" (data e) = VString net ->
  let payload :=
    update_payload getTagsFromSchema getNextHopsFromSchema
      (data e) lr rev desc dn net in
  manager.UpdateStaticRoute (manager.LogicalRoutingAndServicesApi c)
    lr (schema.Id (data e)) payload (world e) = ((sr, Some resp, err), w') ->
  http.StatusCode resp = http.StatusNotFound ->
  exists failure,
    Update m e =
      (Returned (Some failure),
       {| data := data e; world := w';
          calls := (calls e ++
            [manager.CallUpdateStaticRoute lr (schema.Id (data e)) payload])%list |})
    /\ kind failure = Some RemoteCallError.
Proof.
  intros Hc Hid Hget Hlr Hrev Hdesc Hdn Hnet payload Hcall H404.
  pose proof (Update_unfold m c e lr rev desc dn net
                Hc Hid Hget Hlr Hrev Hdesc Hdn Hnet) as H.
  cbv zeta in H. fold payload in H. rewrite Hcall in H. rewrite H.
  destruct err as [cause|]; [by eexists|].
  destruct (decide _) as [_|N]; [by eexists|done].
Qed.

(** On an identified instance Update issues the update call exactly once,
    before anything else, with the payload it has assembled; whatever is
    called after it is the fetch of the closing Read. *)
Lemma Update_call_log (m : nsxtClients) (c : APIClient) (e : Env)
    (lr : string) (rev : Z) (desc dn net : string) :
  NsxtClient m = Some c ->
  schema.Id (data e) ≠ "" ->
  Get "logical_router_id" (data e) = VString lr ->
  lr ≠ "" ->
  Get "revision" (data e) = VInt rev ->
  Get "description" (data e) = VString desc ->
  Get "display_name" (data e) = VString dn ->
  Get "network" (data e) = VString net ->
  let payload : StaticRoute :=
    {| manager.Id := "";
       manager.Revision := rev;
       manager.Description := desc;
       manager.DisplayName := dn;
       manager.Tags := getTagsFromSchema (data e);
       manager.LogicalRouterId := lr;
       manager.Network := net;
       manager.NextHops := getNextHopsFromSchema (data e) |} in
  exists r e' rest,
    Update m e = (r, e') /\
    calls e' =
      (calls e ++
        manager.CallUpdateStaticRoute lr (schema.Id (data e)) payload
        :: rest)%list /\
    (rest = [] \/ exists lr' id', rest = [manager.CallReadStaticRoute lr' id']) /\
    filter (fun call => is_update call = true) (calls e') =
      (filter (fun call => is_update call = true) (calls e) ++
        [manager.CallUpdateStaticRoute lr (schema.Id (data e)) payload])%list.
Proof.
  intros Hc Hid Hget Hlr Hrev Hdesc Hdn Hnet payload.
  pose proof (Update_unfold m c e lr rev desc dn net
                Hc Hid Hget Hlr Hrev Hdesc Hdn Hnet) as H.
  cbv zeta in H. change (update_payload _ _ _ _ _ _ _ _) with payload in H.
  destruct (manager.UpdateStaticRoute _ _ _ _ _) as [[[sr resp] err] w'].
  assert (forall r e' rest,
    Update m e = (r, e') ->
    calls e' = (calls e ++
        manager.CallUpdateStaticRoute lr (schema.Id (data e)) payload
        :: rest)%list ->
    rest = [] \/ (exists lr' id', rest = [manager.CallReadStaticRoute lr' id']) ->
    exists r e' rest,
      Update m e = (r, e') /\
      calls e' = (calls e ++
        manager.CallUpdateStaticRoute lr (schema.Id (data e)) payload
        :: rest)%list /\
      (rest = [] \/ exists lr' id', rest = [manager.CallReadStaticRoute lr' id']) /\
      filter (fun call => is_update call = true) (calls e') =
        (filter (fun call => is_update call = true) (calls e) ++
          [manager.CallUpdateStaticRoute lr (schema.Id (data e)) payload])%list)
    as Hfin.
  { intros r e' rest HU Hcalls Hrest. exists r, e', rest.
    split_and!; [done..|]. rewrite Hcalls, filter_app. f_equal.
    rewrite filter_cons_True by done. f_equal.
    destruct Hrest as [->|(lr' & id' & ->)]; [done|].
    by rewrite filter_cons_False by (simpl; done). }
  destruct err as [cause|]; [by eapply (Hfin _ _ []); eauto|].
  destruct resp as [resp|]; [|by eapply (Hfin _ _ []); eauto].
  destruct (decide (http.StatusCode resp = http.StatusNotFound));
    [by eapply (Hfin _ _ []); eauto|].
  destruct (Read m _) as [r e'] eqn:HR in H.
  destruct (Read_calls _ _ _ _ HR) as [E|(lr' & id' & E)]; simpl in E.
  - eapply (Hfin _ _ []); eauto.
  - eapply (Hfin _ _ [_]); eauto.
    rewrite E, <- app_assoc. done.
Qed.

(** C9, as the code has it: on an identified instance Update reads the
    revision and the scalars [description], [display_name],
    [logical_router_id] and [network] from the instance and the tag and
    next-hop lists through their codecs, puts exactly these values into
    one [StaticRoute] payload (every field of it but the ID), and issues
    the update call with that payload exactly once, before anything else.
    These are the fields of a static route, whatever the schema says of
    them: of the licence schema, the two fields a caller may set,
    [license_key] and [accept_eula], are not among them, and
    [description], which that schema marks computed, is. *)
Theorem Update_single_call (m : nsxtClients) (c : APIClient) (e : Env)
    (lr : string) (rev : Z) (desc dn net : string) :
  NsxtClient m = Some c ->
  schema.Id (data e) ≠ "" ->
  Get "logical_router_id" (data e) = VString lr ->
  lr ≠ "" ->
  Get "revision" (data e) = VInt rev ->
  Get "description" (data e) = VString desc ->
  Get "display_name" (data e) = VString dn ->
  Get "network" (data e) = VString net ->
  let payload : StaticRoute :=
    {| manager.Id := "";
       manager.Revision := rev;
       manager.Description := desc;
       manager.DisplayName := dn;
       manager.Tags := getTagsFromSchema (data e);
       manager.LogicalRouterId := lr;
       manager.Network := net;
       manager.NextHops := getNextHopsFromSchema (data e) |} in
  (exists r e' rest,
     Update m e = (r, e') /\
     calls e' =
       (calls e ++
         manager.CallUpdateStaticRoute lr (schema.Id (data e)) payload
         :: rest)%list /\
     (rest = [] \/
      exists lr' id', rest = [manager.CallReadStaticRoute lr' id']) /\
     filter (fun call => is_update call = true) (calls e') =
       (filter (fun call => is_update call = true) (calls e) ++
         [manager.CallUpdateStaticRoute lr (schema.Id (data e)) payload])%list)
  /\
  mutable_keys resourceNsxtLicense = ["license_key"; "accept_eula"] /\
  (forall k, k ∈ mutable_keys resourceNsxtLicense ->
     k ∉ ["revision"; "description"; "display_name"; "logical_router_id";
          "network"]) /\
  "description" ∈ computed_keys resourceNsxtLicense.
Proof.
  intros Hc Hid Hget Hlr Hrev Hdesc Hdn Hnet payload.
  split_and!.
  - by eapply Update_call_log.
  - by vm_compute.
  - intros k Hk.
    assert (k ∈ ["license_key"; "accept_eula"]) as Hk' by exact Hk.
    repeat (apply elem_of_cons in Hk' as [->|Hk']);
      [decide_no|decide_no|by apply elem_of_nil in Hk'].
  - decide_yes.
Qed.

(** *** Delete *)

(** On an identified instance Delete issues its call and then looks at the
    error first: only a reply without error has its status examined. *)
Lemma Delete_unfold (m : nsxtClients) (c : APIClient) (e : Env) (lr : string) :
  NsxtClient m = Some c ->
  schema.Id (data e) ≠ "" ->
  Get "logical_router_id" (data e) = VString lr ->
  lr ≠ "" ->
  let '((resp, err), w') :=
    manager.DeleteStaticRoute (manager.LogicalRoutingAndServicesApi c)
      lr (schema.Id (data e)) (world e) in
  let log :=
    (calls e ++ [manager.CallDeleteStaticRoute lr (schema.Id (data e))])%list in
  Delete m e =
    match err, resp with
    | Some _, _ =>
        (Returned (Some (Errorf "Error during StaticRoute delete: %v"
                           [AError err])),
         {| data := data e; world := w'; calls := log |})
    | None, None =>
        (Panicked NilDereference,
         {| data := data e; world := w'; calls := log |})
    | None, Some r =>
        (Returned None,
         {| data := if decide (http.StatusCode r = http.StatusNotFound)
                    then SetId "" (data e) else data e;
            world := w'; calls := log |})
    end.
Proof.
  intros Hc Hid Hget Hlr.
  unfold resourceNsxtLicenseDelete. rewrite Hc. unfold_M.
  destruct (decide (schema.Id (data e) = "")) as [|_]; [done|].
  rewrite Hget. destruct (decide (lr = "")) as [|_]; [done|].
  destruct (manager.DeleteStaticRoute _ _ _ _) as [[resp err] w'].
  simpl. destruct err as [cause|]; [done|].
  destruct resp as [r|]; [|done]. simpl.
  by destruct (decide _).
Qed.

(** A delete call answered by 404 and no error: the identity is cleared
    and Delete reports success. *)
Lemma Delete_not_found_no_error (m : nsxtClients) (c : APIClient) (e : Env)
    (lr : string) (resp : http.Response) (w' : World) :
  NsxtClient m = Some c ->
  schema.Id (data e) ≠ "" ->
  Get "logical_router_id" (data e) = VString lr ->
  lr ≠ "" ->
  manager.DeleteStaticRoute (manager.LogicalRoutingAndServicesApi c)
    lr (schema.Id (data e)) (world e) = ((Some resp, None), w') ->
  http.StatusCode resp = http.StatusNotFound ->
  Delete m e =
    (Returned None,
     {| data := SetId "" (data e); world := w';
        calls := (calls e ++
          [manager.CallDeleteStaticRoute lr (schema.Id (data e))])%list |}).
Proof.
  intros Hc Hid Hget Hlr Hcall H404.
  pose proof (Delete_unfold m c e lr Hc Hid Hget Hlr) as H.
  rewrite Hcall in H. rewrite H.
  by destruct (decide _).
Qed.

(** A delete call answered by 404 together with an error: Delete returns
    a remote-call error and the identity stays. *)
Lemma Delete_not_found_with_error (m : nsxtClients) (c : APIClient) (e : Env)
    (lr : string) (resp : option http.Response) (cause : manager.cause)
    (w' : World) :
  NsxtClient m = Some c ->
  schema.Id (data e) ≠ "" ->
  Get "logical_router_id" (data e) = VString lr ->
  lr ≠ "" ->
  manager.DeleteStaticRoute (manager.LogicalRoutingAndServicesApi c)
    lr (schema.Id (data e)) (world e) = ((resp, Some cause), w') ->
  exists failure,
    Delete m e =
      (Returned (Some failure),
       {| data := data e; world := w';
          calls := (calls e ++
            [manager.CallDeleteStaticRoute lr (schema.Id (data e))])%list |})
    /\ kind failure = Some RemoteCallError.
Proof.
  intros Hc Hid Hget Hlr Hcall.
  pose proof (Delete_unfold m c e lr Hc Hid Hget Hlr) as H.
  rewrite Hcall in H. rewrite H. by eexists.
Qed.

(** *** Import *)

Lemma Set_Id key v d : schema.Id (Set_ key v d).1 = schema.Id d.
Proof. by destruct (Set_only_touches key v d) as (? & _). Qed.

Lemma Get_Set_string key s d sch :
  fields d !! key = Some sch -> Type_ sch = TypeString ->
  Get key (Set_ key (VString s) d).1 = VString s.
Proof.
  intros Hf Ht. unfold Get, Set_. rewrite Hf, Ht. simpl. rewrite Hf.
  by rewrite lookup_insert_eq.
Qed.

(** C1, as the code has it: Import returns for every key, and succeeds
    exactly when the key has one slash, that is when it splits into two
    components, empty or not.  It then returns the instance with the
    second component as its ID and the first written to
    [logical_router_id] (where the schema has that string field, the field
    reads back as the first component), without a remote call.  On any
    other key it fails with the malformed-key error and changes
    nothing. *)
Theorem Import_one_slash (m : nsxtClients) (e : Env) :
  let key := schema.Id (data e) in
  (strings.Count key "/" = 1%nat /\
   exists a b d',
     key = a +:+ String "/" b /\
     strings.Count a "/" = 0%nat /\ strings.Count b "/" = 0%nat /\
     d' = (Set_ "logical_router_id" (VString a) (SetId b (data e))).1 /\
     Import m e =
       (Returned (Some [d'], None),
        {| data := d'; world := world e; calls := calls e |}) /\
     schema.Id d' = b /\
     (forall sch, fields (data e) !! "logical_router_id" = Some sch ->
        Type_ sch = TypeString ->
        Get "logical_router_id" d' = VString a))
  \/
  (strings.Count key "/" ≠ 1%nat /\
   exists failure,
     Import m e = (Returned (None, Some failure), e) /\
     kind failure = Some MalformedImportKeyError).
Proof.
  intros key. unfold resourceNsxtLicenseImport. unfold_M. fold key.
  pose proof (Split_length key "/") as L.
  destruct (decide (length (strings.Split key "/") ≠ 2%nat)) as [N|Y].
  - right. split; [lia|]. by eexists.
  - left. split; [lia|].
    destruct (strings.Split key "/") as [|a [|b [|? ?]]] eqn:E;
      simpl in Y; try lia.
    apply Split_two in E as (E & Ha & Hb).
    exists a, b, (Set_ "logical_router_id" (VString a) (SetId b (data e))).1.
    split_and!; [done..| | |].
    + simpl. by destruct (Set_ _ _ _).
    + by rewrite Set_Id.
    + intros sch Hf Ht. by eapply Get_Set_string.
Qed.

(** *** Create *)

(** With a client and the two licence fields at hand, Create issues its
    two calls and decides on the reply of the first.  The identity it
    stores is that of its own [staticRoute]: neither reply is used for
    it. *)
Lemma Create_unfold api (logicalRouterID : string) (staticRoute : StaticRoute)
    (m : nsxtClients) (c : APIClient) (e : Env) (l : string) (b : bool) :
  NsxtClient m = Some c ->
  Get "license_key" (data e) = VString l ->
  Get "accept_eula" (data e) = VBool b ->
  let '((_, resp, err), w1) :=
    manager.CreateLicense (manager.LicensingApi c) (world e) in
  let '(_, w2) :=
    manager.AddStaticRoute api logicalRouterID staticRoute w1 in
  let log :=
    ((calls e ++ [manager.CallCreateLicense]) ++
     [manager.CallAddStaticRoute logicalRouterID staticRoute])%list in
  let e1 : Env := {| data := data e; world := w2; calls := log |} in
  Create api logicalRouterID staticRoute m e =
    match err, resp with
    | Some _, _ =>
        (Returned (Some (Errorf
           "Error during StaticRoute create on router %s: %v"
           [AString logicalRouterID; AError err])), e1)
    | None, None => (Panicked NilDereference, e1)
    | None, Some r =>
        if decide (http.StatusCode r ≠ http.StatusOK)
        then (Returned (Some (Errorf
                "Unexpected status returned during StaticRoute create on router %s: %v"
                [AString logicalRouterID; AInt (http.StatusCode r)])), e1)
        else Read m {| data := SetId (manager.Id staticRoute) (data e);
                       world := w2; calls := log |}
    end.
Proof.
  intros Hc Hl Hb.
  unfold resourceNsxtLicenseCreate. rewrite Hc. unfold_M.
  rewrite Hl, Hb.
  destruct (manager.CreateLicense _ _) as [[[lic resp] err] w1]. simpl.
  destruct (manager.AddStaticRoute _ _ _ _) as [x w2]. simpl.
  destruct err as [cause|]; [done|].
  destruct resp as [r|]; [|done]. simpl.
  by destruct (decide _).
Qed.

(** X12: a creation call answered without error by a status other than 200:
    Create fails with the unexpected-status error, which carries the
    router and the status, and leaves the instance as it was. *)
Lemma Create_unexpected_status api (logicalRouterID : string)
    (staticRoute : StaticRoute) (m : nsxtClients) (c : APIClient) (e : Env)
    (l : string) (b : bool) lic (resp : http.Response) (w1 : World) :
  NsxtClient m = Some c ->
  Get "license_key" (data e) = VString l ->
  Get "accept_eula" (data e) = VBool b ->
  manager.CreateLicense (manager.LicensingApi c) (world e)
    = ((lic, Some resp, None), w1) ->
  http.StatusCode resp ≠ http.StatusOK ->
  exists failure e',
    Create api logicalRouterID staticRoute m e
      = (Returned (Some failure), e') /\
    failure = Errorf
      "Unexpected status returned during StaticRoute create on router %s: %v"
      [AString logicalRouterID; AInt (http.StatusCode resp)] /\
    kind failure = Some UnexpectedStatusError /\
    data e' = data e.
Proof.
  intros Hc Hl Hb Hcall Hst.
  pose proof (Create_unfold api logicalRouterID staticRoute m c e l b
                Hc Hl Hb) as H.
  rewrite Hcall in H.
  destruct (manager.AddStaticRoute _ _ _ _) as [x w2].
  rewrite H. destruct (decide _) as [_|N]; [|done].
  by eexists _, _.
Qed.

(** X13: a creation call answered by 200 and no error: Create stores the
    identity of its own [staticRoute] and goes on with Read on the
    instance so changed, both creation calls in the log. *)
Lemma Create_stores api (logicalRouterID : string)
    (staticRoute : StaticRoute) (m : nsxtClients) (c : APIClient) (e : Env)
    (l : string) (b : bool) lic (resp : http.Response) (w1 w2 : World) x :
  NsxtClient m = Some c ->
  Get "license_key" (data e) = VString l ->
  Get "accept_eula" (data e) = VBool b ->
  manager.CreateLicense (manager.LicensingApi c) (world e)
    = ((lic, Some resp, None), w1) ->
  http.StatusCode resp = http.StatusOK ->
  manager.AddStaticRoute api logicalRouterID staticRoute w1 = (x, w2) ->
  Create api logicalRouterID staticRoute m e =
    Read m {| data := SetId (manager.Id staticRoute) (data e);
              world := w2;
              calls := ((calls e ++ [manager.CallCreateLicense]) ++
                [manager.CallAddStaticRoute logicalRouterID staticRoute])%list |}.
Proof.
  intros Hc Hl Hb Hcall Hst Hadd.
  pose proof (Create_unfold api logicalRouterID staticRoute m c e l b
                Hc Hl Hb) as H.
  rewrite Hcall, Hadd in H. rewrite H.
  destruct (decide _) as [N|_]; [done|]. done.
Qed.

End Properties.

Section FurtherProperties.

Context {Tag NextHop License World : Type}.

Variable setTagsInSchema :
  ResourceData -> list Tag -> ResourceData * option manager.cause.
Variable getTagsFromSchema : ResourceData -> list Tag.
Variable setNextHopsInSchema :
  ResourceData -> list NextHop -> ResourceData * option manager.cause.
Variable getNextHopsFromSchema : ResourceData -> list NextHop.

Local Abbreviation Env := (Env Tag NextHop World).
Local Abbreviation nsxtClients := (nsxtClients Tag NextHop License World).
Local Abbreviation APIClient := (manager.APIClient Tag NextHop License World).
Local Abbreviation StaticRoute := (manager.StaticRoute Tag NextHop).

Local Abbreviation Read :=
  (@resourceNsxtLicenseRead Tag NextHop License World
     setTagsInSchema setNextHopsInSchema).
Local Abbreviation Update :=
  (@resourceNsxtLicenseUpdate Tag NextHop License World
     setTagsInSchema getTagsFromSchema
     setNextHopsInSchema getNextHopsFromSchema).
Local Abbreviation Delete :=
  (@resourceNsxtLicenseDelete Tag NextHop License World).
Local Abbreviation Create :=
  (@resourceNsxtLicenseCreate Tag NextHop License World
     setTagsInSchema setNextHopsInSchema).
Local Abbreviation Import :=
  (@resourceNsxtLicenseImport Tag NextHop License World).

(** The lemmas above, at the codecs of this section. *)
Local Abbreviation Read_unfold :=
  (@Read_unfold Tag NextHop License World setTagsInSchema setNextHopsInSchema).
Local Abbreviation Read_calls :=
  (@Read_calls Tag NextHop License World setTagsInSchema setNextHopsInSchema).
Local Abbreviation Update_unfold :=
  (@Update_unfold Tag NextHop License World
     setTagsInSchema getTagsFromSchema
     setNextHopsInSchema getNextHopsFromSchema).
Local Abbreviation Create_unfold :=
  (@Create_unfold Tag NextHop License World
     setTagsInSchema setNextHopsInSchema).

(** ** Further properties of the entry points *)

(** *** Delete and Read on the replies of the manager *)

(** X1: on an identified instance, a delete call that comes back without
    error is a success whatever its status: at 404 the ID is cleared, at
    any other status, 500 included, the instance is left as it was. *)
Theorem Delete_without_error (m : nsxtClients) (c : APIClient) (e : Env)
    (lr : string) (resp : http.Response) (w' : World) :
  NsxtClient m = Some c ->
  schema.Id (data e) ≠ "" ->
  Get "logical_router_id" (data e) = VString lr ->
  lr ≠ "" ->
  manager.DeleteStaticRoute (manager.LogicalRoutingAndServicesApi c)
    lr (schema.Id (data e)) (world e) = ((Some resp, None), w') ->
  exists d',
    Delete m e =
      (Returned None,
       {| data := d'; world := w';
          calls := (calls e ++
            [manager.CallDeleteStaticRoute lr (schema.Id (data e))])%list |}) /\
    (http.StatusCode resp = http.StatusNotFound -> d' = SetId "" (data e)) /\
    (http.StatusCode resp ≠ http.StatusNotFound -> d' = data e).
Proof.
  intros Hc Hid Hget Hlr Hcall.
  pose proof (Delete_unfold m c e lr Hc Hid Hget Hlr) as H.
  rewrite Hcall in H. rewrite H.
  eexists. split; [reflexivity|].
  by destruct (decide _).
Qed.

(** X2: on an identified instance, a fetch that comes back with an error
    and no 404 (a nil response included) makes Read return a remote-call
    error that carries the cause; the instance is left as it was. *)
Theorem Read_transport_error (m : nsxtClients) (c : APIClient) (e : Env)
    (lr : string) (sr : StaticRoute) (resp : option http.Response)
    (cause : manager.cause) (w' : World) :
  NsxtClient m = Some c ->
  schema.Id (data e) ≠ "" ->
  Get "logical_router_id" (data e) = VString lr ->
  lr ≠ "" ->
  manager.ReadStaticRoute (manager.LogicalRoutingAndServicesApi c)
    lr (schema.Id (data e)) (world e) = ((sr, resp, Some cause), w') ->
  ~ not_found resp ->
  let failure :=
    Errorf "Error during StaticRoute read: %v" [AError (Some cause)] in
  Read m e =
    (Returned (Some failure),
     {| data := data e; world := w';
        calls := (calls e ++
          [manager.CallReadStaticRoute lr (schema.Id (data e))])%list |}) /\
  kind failure = Some RemoteCallError.
Proof.
  intros Hc Hid Hget Hlr Hcall H404 failure.
  pose proof (Read_unfold m c e lr Hc Hid Hget Hlr) as H.
  rewrite Hcall in H. rewrite H.
  by destruct (decide _).
Qed.

(** X3: Read tests the response pointer before it reads the status, so no
    reply makes it panic: whenever the parent identifier reads as a
    string, Read returns, with or without a client and whatever the
    manager answers. *)
Theorem Read_returns (m : nsxtClients) (e : Env) (lr : string) :
  Get "logical_router_id" (data e) = VString lr ->
  exists r e', Read m e = (Returned r, e').
Proof.
  intros Hget.
  destruct (NsxtClient m) as [c|] eqn:Hc;
    [|unfold resourceNsxtLicenseRead; rewrite Hc; by eexists _, _].
  destruct (decide (schema.Id (data e) = "")) as [Hid|Hid].
  { unfold resourceNsxtLicenseRead. rewrite Hc. unfold_M.
    destruct (decide _) as [_|]; [|done]. by eexists _, _. }
  destruct (decide (lr = "")) as [Hlr|Hlr].
  { unfold resourceNsxtLicenseRead. rewrite Hc. unfold_M.
    destruct (decide (schema.Id (data e) = "")); [done|]. rewrite Hget.
    destruct (decide (lr = "")); [|done]. by eexists _, _. }
  pose proof (Read_unfold m c e lr Hc Hid Hget Hlr) as H.
  destruct (manager.ReadStaticRoute _ _ _ _) as [[[sr resp] err] w'].
  rewrite H. destruct (decide _); [by eexists _, _|].
  destruct err as [cause|]; [by eexists _, _|].
  cbv zeta. destruct (setNextHopsInSchema _ _) as [d7 failed].
  by eexists _, _.
Qed.

(** X4: Delete and Update read the status of the response without that
    test: a reply with neither a response nor an error makes each of them
    panic on the nil pointer, after the call has been made and with the
    instance as it was. *)
Theorem nil_response_panics (m : nsxtClients) (c : APIClient) (e : Env)
    (lr : string) (rev : Z) (desc dn net : string)
    (sr : StaticRoute) (w1 w2 : World) :
  NsxtClient m = Some c ->
  schema.Id (data e) ≠ "" ->
  Get "logical_router_id" (data e) = VString lr ->
  lr ≠ "" ->
  Get "revision" (data e) = VInt rev ->
  Get "description" (data e) = VString desc ->
  Get "display_name" (data e) = VString dn ->
  Get "network" (data e) = VString net ->
  let payload :=
    update_payload getTagsFromSchema getNextHopsFromSchema
      (data e) lr rev desc dn net in
  manager.DeleteStaticRoute (manager.LogicalRoutingAndServicesApi c)
    lr (schema.Id (data e)) (world e) = ((None, None), w1) ->
  manager.UpdateStaticRoute (manager.LogicalRoutingAndServicesApi c)
    lr (schema.Id (data e)) payload (world e) = ((sr, None, None), w2) ->
  Delete m e =
    (Panicked NilDereference,
     {| data := data e; world := w1;
        calls := (calls e ++
          [manager.CallDeleteStaticRoute lr (schema.Id (data e))])%list |}) /\
  Update m e =
    (Panicked NilDereference,
     {| data := data e; world := w2;
        calls := (calls e ++
          [manager.CallUpdateStaticRoute lr (schema.Id (data e)) payload])%list |}).
Proof.
  intros Hc Hid Hget Hlr Hrev Hdesc Hdn Hnet payload Hdel Hupd.
  pose proof (Delete_unfold m c e lr Hc Hid Hget Hlr) as HD.
  rewrite Hdel in HD.
  pose proof (Update_unfold m c e lr rev desc dn net
                Hc Hid Hget Hlr Hrev Hdesc Hdn Hnet) as HU.
  cbv zeta in HU. fold payload in HU. rewrite Hupd in HU.
  by rewrite HD, HU.
Qed.

(** *** Create and Update around their calls *)

(** X5: when the creation call fails in transit, Create has all the same
    issued its second call before it looks at the error; it then returns a
    remote-call error that carries the router and the cause, without a
    Read and with the instance as it was. *)
Theorem Create_transport_error api (logicalRouterID : string)
    (staticRoute : StaticRoute) (m : nsxtClients) (c : APIClient) (e : Env)
    (l : string) (b : bool) lic (resp : option http.Response)
    (cause : manager.cause) (w1 w2 : World) x :
  NsxtClient m = Some c ->
  Get "license_key" (data e) = VString l ->
  Get "accept_eula" (data e) = VBool b ->
  manager.CreateLicense (manager.LicensingApi c) (world e)
    = ((lic, resp, Some cause), w1) ->
  manager.AddStaticRoute api logicalRouterID staticRoute w1 = (x, w2) ->
  let failure :=
    Errorf "Error during StaticRoute create on router %s: %v"
      [AString logicalRouterID; AError (Some cause)] in
  Create api logicalRouterID staticRoute m e =
    (Returned (Some failure),
     {| data := data e; world := w2;
        calls := ((calls e ++ [manager.CallCreateLicense]) ++
          [manager.CallAddStaticRoute logicalRouterID staticRoute])%list |}) /\
  kind failure = Some RemoteCallError.
Proof.
  intros Hc Hl Hb Hcall Hadd failure.
  pose proof (Create_unfold api logicalRouterID staticRoute m c e l b
                Hc Hl Hb) as H.
  rewrite Hcall, Hadd in H. by rewrite H.
Qed.

(** X6: an update call that comes back without error and with any status
    but 404, a 500 included, counts as done: Update goes on with Read on
    the instance as it was, the manager in the state the call left. *)
Theorem Update_then_Read (m : nsxtClients) (c : APIClient) (e : Env)
    (lr : string) (rev : Z) (desc dn net : string)
    (sr : StaticRoute) (resp : http.Response) (w' : World) :
  NsxtClient m = Some c ->
  schema.Id (data e) ≠ "" ->
  Get "logical_router_id" (data e) = VString lr ->
  lr ≠ "" ->
  Get "revision" (data e) = VInt rev ->
  Get "description" (data e) = VString desc ->
  Get "display_name" (data e) = VString dn ->
  Get "network" (data e) = VString net ->
  let payload :=
    update_payload getTagsFromSchema getNextHopsFromSchema
      (data e) lr rev desc dn net in
  manager.UpdateStaticRoute (manager.LogicalRoutingAndServicesApi c)
    lr (schema.Id (data e)) payload (world e) = ((sr, Some resp, None), w') ->
  http.StatusCode resp ≠ http.StatusNotFound ->
  Update m e =
    Read m {| data := data e; world := w';
              calls := (calls e ++
                [manager.CallUpdateStaticRoute lr (schema.Id (data e))
                   payload])%list |}.
Proof.
  intros Hc Hid Hget Hlr Hrev Hdesc Hdn Hnet payload Hcall Hst.
  pose proof (Update_unfold m c e lr rev desc dn net
                Hc Hid Hget Hlr Hrev Hdesc Hdn Hnet) as H.
  cbv zeta in H. fold payload in H. rewrite Hcall in H. rewrite H.
  by destruct (decide _).
Qed.

(** *** The resource on its own schema *)

Lemma licence_schema_no_parent (d : ResourceData) :
  fields d = list_to_map (Schema_ resourceNsxtLicense) ->
  Get "logical_router_id" d = VNil.
Proof. intros Hf. unfold Get. rewrite Hf. by vm_compute. Qed.

(** X7: the schema [resourceNsxtLicense] gives the resource has no field
    [logical_router_id], so on data of that schema the read of the parent
    identifier yields nil and the assertion to string panics: with a
    client and a non-empty ID, Read, Update and Delete all panic before
    any call is made. *)
Theorem licence_schema_panics (m : nsxtClients) (c : APIClient) (e : Env) :
  NsxtClient m = Some c ->
  fields (data e) = list_to_map (Schema_ resourceNsxtLicense) ->
  schema.Id (data e) ≠ "" ->
  Read m e = (Panicked TypeAssertion, e) /\
  Update m e = (Panicked TypeAssertion, e) /\
  Delete m e = (Panicked TypeAssertion, e).
Proof.
  intros Hc Hf Hid. apply licence_schema_no_parent in Hf.
  unfold resourceNsxtLicenseRead, resourceNsxtLicenseUpdate,
    resourceNsxtLicenseDelete.
  rewrite Hc. unfold_M.
  destruct (decide (schema.Id (data e) = "")) as [|_]; [done|].
  by rewrite Hf.
Qed.

(** *** Import, and Read after it *)

Lemma Import_of_join (m : nsxtClients) (e : Env) (a b : string) :
  schema.Id (data e) = a +:+ String "/" b ->
  strings.Count a "/" = 0%nat -> strings.Count b "/" = 0%nat ->
  let d' := (Set_ "logical_router_id" (VString a) (SetId b (data e))).1 in
  Import m e =
    (Returned (Some [d'], None),
     {| data := d'; world := world e; calls := calls e |}).
Proof.
  intros Hkey Ha Hb d'.
  assert (strings.Split (schema.Id (data e)) "/" = [a; b]) as E
    by (by apply Split_two).
  unfold resourceNsxtLicenseImport. unfold_M. rewrite E. simpl.
  subst d'. by destruct (Set_ _ _ _).
Qed.

(** X8: a key made of a router and a route around one slash, neither of
    them empty, is taken apart again by Import, and on an instance that
    has the string field [logical_router_id] the Read that follows fetches
    that route under that router, as its one call, and returns. *)
Theorem Import_then_Read (m : nsxtClients) (c : APIClient) (e : Env)
    (a b : string) (sch : Schema) :
  NsxtClient m = Some c ->
  schema.Id (data e) = a +:+ String "/" b ->
  strings.Count a "/" = 0%nat -> strings.Count b "/" = 0%nat ->
  a ≠ "" -> b ≠ "" ->
  fields (data e) !! "logical_router_id" = Some sch ->
  Type_ sch = TypeString ->
  exists d' r e2,
    Import m e =
      (Returned (Some [d'], None),
       {| data := d'; world := world e; calls := calls e |}) /\
    schema.Id d' = b /\
    Get "logical_router_id" d' = VString a /\
    Read m {| data := d'; world := world e; calls := calls e |}
      = (Returned r, e2) /\
    calls e2 = (calls e ++ [manager.CallReadStaticRoute a b])%list.
Proof.
  intros Hc Hkey Ha Hb Hane Hbne Hf Ht.
  pose proof (Import_of_join m e a b Hkey Ha Hb) as HI. cbv zeta in HI.
  set (d' := (Set_ "logical_router_id" (VString a) (SetId b (data e))).1)
    in *.
  assert (schema.Id d' = b) as Hid by (unfold d'; by rewrite Set_Id).
  assert (Get "logical_router_id" d' = VString a) as Hget
    by (unfold d'; by eapply Get_Set_string).
  set (e1 := {| data := d'; world := world e; calls := calls e |} : Env).
  assert (schema.Id (data e1) ≠ "") as Hid1 by (simpl; congruence).
  pose proof (Read_unfold m c e1 a Hc Hid1 Hget Hane) as HR.
  simpl in HR. rewrite Hid in HR.
  destruct (manager.ReadStaticRoute _ _ _ _) as [[[sr resp] err] w'].
  exists d'.
  destruct (decide (not_found resp)).
  { eexists _, _. split_and!; [done..|exact HR|done]. }
  destruct err as [cause|].
  { eexists _, _. split_and!; [done..|exact HR|done]. }
  cbv zeta in HR. destruct (setNextHopsInSchema _ _) as [d7 failed].
  eexists _, _. split_and!; [done..|exact HR|done].
Qed.

(** *** What the entry points return and call *)

Lemma Read_failure_source (m : nsxtClients) (e e' : Env) failure :
  Read m e = (Returned (Some failure), e') ->
  Read_failure setNextHopsInSchema m e failure.
Proof.
  unfold resourceNsxtLicenseRead, Read_failure. unfold_M. intros H.
  crush; eauto 15.
Qed.

(** X9: where the errors come from.  An error returned by an entry point
    is the not-supported error, the message of one of its own checks, a
    message that carries the error or the status of the remote call the
    entry point has just made, or (for Read, and for the Read that closes
    Update and Create) a message that carries the error of the next-hop
    codec.  No other error is passed on: what [d.Set] and the tag codec
    return is not among the sources. *)
Theorem errors_classified api (logicalRouterID : string)
    (staticRoute : StaticRoute) (m : nsxtClients) (e e' : Env)
    (failure : error) :
  (Read m e = (Returned (Some failure), e') ->
     Read_failure setNextHopsInSchema m e failure) /\
  (Update m e = (Returned (Some failure), e') ->
     failure = resourceNotSupportedError \/
     failure = Errorf "Error obtaining logical object id" [] \/
     failure = Errorf
       "Error obtaining logical router id during static route update" [] \/
     (exists c lr body sr resp err w',
        NsxtClient m = Some c /\
        manager.UpdateStaticRoute (manager.LogicalRoutingAndServicesApi c)
          lr (schema.Id (data e)) body (world e) = ((sr, resp, err), w') /\
        (is_Some err \/ not_found resp) /\
        failure = Errorf "Error during StaticRoute update: %v" [AError err]) \/
     (exists e1, data e1 = data e /\
        Read_failure setNextHopsInSchema m e1 failure)) /\
  (Delete m e = (Returned (Some failure), e') ->
     failure = resourceNotSupportedError \/
     failure = Errorf "Error obtaining logical object id" [] \/
     failure = Errorf
       "Error obtaining logical router id during static route deletion" [] \/
     (exists c lr resp cause w',
        NsxtClient m = Some c /\
        manager.DeleteStaticRoute (manager.LogicalRoutingAndServicesApi c)
          lr (schema.Id (data e)) (world e) = ((resp, Some cause), w') /\
        failure = Errorf "Error during StaticRoute delete: %v"
                    [AError (Some cause)])) /\
  (Create api logicalRouterID staticRoute m e = (Returned (Some failure), e')
     ->
     failure = resourceNotSupportedError \/
     (exists c lic resp cause w1,
        NsxtClient m = Some c /\
        manager.CreateLicense (manager.LicensingApi c) (world e)
          = ((lic, resp, Some cause), w1) /\
        failure = Errorf "Error during StaticRoute create on router %s: %v"
                    [AString logicalRouterID; AError (Some cause)]) \/
     (exists c lic r w1,
        NsxtClient m = Some c /\
        manager.CreateLicense (manager.LicensingApi c) (world e)
          = ((lic, Some r, None), w1) /\
        http.StatusCode r ≠ http.StatusOK /\
        failure = Errorf
          "Unexpected status returned during StaticRoute create on router %s: %v"
          [AString logicalRouterID; AInt (http.StatusCode r)]) \/
     (exists e1, data e1 = SetId (manager.Id staticRoute) (data e) /\
        Read_failure setNextHopsInSchema m e1 failure)) /\
  (forall ds, Import m e = (Returned (ds, Some failure), e') ->
     failure = Errorf
       "Please provide <router-id>/<static-route-id> as an input" []).
Proof.
  split_and!.
  - apply Read_failure_source.
  - unfold resourceNsxtLicenseUpdate, not_found. unfold_M. intros H.
    crush; eauto 6.
    + do 3 right. left. eexists _, _, _, _, _, _, _.
      split_and!; [done|eassumption|left; by eexists|done].
    + do 3 right. left. eexists _, _, _, _, (Some _), None, _.
      split_and!; [done|eassumption|right; simpl; congruence|done].
    + do 4 right.
      match goal with H : resourceNsxtLicenseRead _ _ _ _ = _ |- _ =>
        apply Read_failure_source in H end.
      eexists. split; [|eassumption]. done.
  - unfold resourceNsxtLicenseDelete. unfold_M. intros H.
    crush; eauto 15.
  - unfold resourceNsxtLicenseCreate. unfold_M. intros H.
    crush; eauto 6.
    + right. left. eexists _, _, _, _, _. split_and!; [done|eassumption|done].
    + right. right. left. eexists _, _, _, _.
      split_and!; [done|eassumption|done|done].
    + do 3 right.
      match goal with H : resourceNsxtLicenseRead _ _ _ _ = _ |- _ =>
        apply Read_failure_source in H end.
      eexists. split; [|eassumption]. done.
  - unfold resourceNsxtLicenseImport. unfold_M. intros ds H. by crush.
Qed.

(** X10: the calls of one invocation.  Read issues at most the fetch and
    Delete at most the delete call; Import calls nothing; Update issues
    nothing, or the update call followed by at most the fetch of its
    Read; Create issues nothing, or both of its creation calls followed by
    at most that fetch.  Calls are only ever added to the log. *)
Theorem remote_calls_bounded api (logicalRouterID : string)
    (staticRoute : StaticRoute) (m : nsxtClients) (e e' : Env) :
  let fetch (cs : list (manager.Call Tag NextHop)) :=
    cs = [] \/ exists lr id, cs = [manager.CallReadStaticRoute lr id] in
  (forall r, Read m e = (r, e') ->
     exists cs, calls e' = (calls e ++ cs)%list /\ fetch cs) /\
  (forall r, Delete m e = (r, e') ->
     exists cs, calls e' = (calls e ++ cs)%list /\
       (cs = [] \/ exists lr id, cs = [manager.CallDeleteStaticRoute lr id])) /\
  (forall r, Import m e = (r, e') -> calls e' = calls e) /\
  (forall r, Update m e = (r, e') ->
     exists cs, calls e' = (calls e ++ cs)%list /\
       (cs = [] \/ exists lr id body rest,
          cs = manager.CallUpdateStaticRoute lr id body :: rest /\
          fetch rest)) /\
  (forall r, Create api logicalRouterID staticRoute m e = (r, e') ->
     exists cs, calls e' = (calls e ++ cs)%list /\
       (cs = [] \/ exists rest,
          cs = manager.CallCreateLicense
               :: manager.CallAddStaticRoute logicalRouterID staticRoute
               :: rest /\
          fetch rest)).
Proof.
  intros fetch.
  assert (forall r e1, Read m e1 = (r, e') ->
            exists cs, calls e' = (calls e1 ++ cs)%list /\ fetch cs) as HR.
  { intros r e1 H. destruct (Read_calls _ _ _ _ H) as [E|(lr & id & E)].
    - exists []. rewrite app_nil_r. split; [done|by left].
    - eexists. split; [exact E|right; eauto]. }
  split_and!.
  - intros r. apply HR.
  - unfold resourceNsxtLicenseDelete. unfold_M. intros r H.
    crush; first [ by (exists []; rewrite app_nil_r; eauto)
                 | by (eexists; split; [reflexivity|right; eauto]) ].
  - unfold resourceNsxtLicenseImport. unfold_M. intros r H. by crush.
  - unfold resourceNsxtLicenseUpdate. unfold_M. intros r H.
    crush;
      try (by (exists []; rewrite app_nil_r; eauto));
      try (by (eexists; split; [reflexivity|right; eexists _, _, _, [];
               split; [reflexivity|by left]])).
    match goal with H : resourceNsxtLicenseRead _ _ _ _ = _ |- _ =>
      apply HR in H as (cs & E & Hcs) end.
    simpl in E. rewrite <- app_assoc in E.
    eexists. split; [exact E|]. right. by eexists _, _, _, cs.
  - unfold resourceNsxtLicenseCreate. unfold_M. intros r H.
    crush;
      try (by (exists []; rewrite app_nil_r; eauto));
      try (by (eexists; split; [rewrite <- app_assoc; reflexivity|
               right; eexists []; split; [reflexivity|by left]])).
    match goal with H : resourceNsxtLicenseRead _ _ _ _ = _ |- _ =>
      apply HR in H as (cs & E & Hcs) end.
    simpl in E. rewrite <- !app_assoc in E.
    eexists. split; [exact E|]. right. by exists cs.
Qed.

(** X11: once a Read has cleared the ID on a 404, the instance is turned
    away by Read, Update and Delete alike: each returns the error for the
    missing object ID and calls nothing. *)
Theorem cleared_instance_is_rejected (m : nsxtClients) (c : APIClient)
    (e : Env) (lr : string) (sr : StaticRoute) (resp : http.Response)
    (err : option manager.cause) (w' : World) :
  NsxtClient m = Some c ->
  schema.Id (data e) ≠ "" ->
  Get "logical_router_id" (data e) = VString lr ->
  lr ≠ "" ->
  manager.ReadStaticRoute (manager.LogicalRoutingAndServicesApi c)
    lr (schema.Id (data e)) (world e) = ((sr, Some resp, err), w') ->
  http.StatusCode resp = http.StatusNotFound ->
  let e' := (Read m e).2 in
  let failure := Errorf "Error obtaining logical object id" [] in
  (Read m e).1 = Returned None /\
  Read m e' = (Returned (Some failure), e') /\
  Update m e' = (Returned (Some failure), e') /\
  Delete m e' = (Returned (Some failure), e').
Proof.
  intros Hc Hid Hget Hlr Hcall H404.
  pose proof (Read_unfold m c e lr Hc Hid Hget Hlr) as H.
  rewrite Hcall in H. rewrite H.
  destruct (decide _) as [_|N];
    [|by destruct N; unfold not_found; simpl; rewrite H404].
  simpl.
  unfold resourceNsxtLicenseRead, resourceNsxtLicenseUpdate,
    resourceNsxtLicenseDelete.
  rewrite Hc. unfold_M. simpl. done.
Qed.

End FurtherProperties.

(** * The properties at the concrete instance *)

Lemma set_list_frame {A} key (enc : A -> value) d (l : list A) :
  only_touches [key] d (Mock.set_list key enc d l).1.
Proof.
  unfold Mock.set_list. pose proof (Set_only_touches key (VList (enc <$> l)) d) as H.
  by destruct (Set_ _ _ _).
Qed.

Lemma Mock_tags_frame d t :
  only_touches ["tags"] d (Mock.setTagsInSchema d t).1.
Proof. apply set_list_frame. Qed.

Lemma Mock_next_hops_frame d h :
  only_touches ["next_hops"] d (Mock.setNextHopsInSchema d h).1.
Proof. apply set_list_frame. Qed.

(** Read of route9 under router1 when the manager answers 404 and the
    client reports that as an error. *)
Lemma Read_not_found_witness :
  exists e',
    Mock.Read
      (Mock.client (Mock.status manager.StaticRoute_zero 404
                      (Some "Status: 404 Not Found"))
         (Mock.ok Mock.route9) (None, None))
      (Mock.env (Mock.instance "route9" "router1")) = (Returned None, e') /\
    schema.Id (data e') = "" /\
    fields (data e') = fields (Mock.instance "route9" "router1") /\
    values (data e') = values (Mock.instance "route9" "router1") /\
    calls e' = [manager.CallReadStaticRoute "router1" "route9"].
Proof.
  eapply (Read_not_found Mock.setTagsInSchema Mock.setNextHopsInSchema
            _ _ (Mock.env (Mock.instance "route9" "router1")) "router1").
  - reflexivity.
  - discriminate.
  - vm_compute. reflexivity.
  - discriminate.
  - reflexivity.
  - reflexivity.
Defined.


(** Update of route9 when the manager answers 404. *)
Lemma Update_not_found_witness :
  exists failure,
    Mock.Update
      (Mock.client (Mock.ok Mock.route9)
         (Mock.status manager.StaticRoute_zero 404
            (Some "Status: 404 Not Found")) (None, None))
      (Mock.env (Mock.instance "route9" "router1")) =
      (Returned (Some failure),
       {| data := Mock.instance "route9" "router1"; world := ();
          calls := [manager.CallUpdateStaticRoute "router1" "route9"
                      (update_payload Mock.getTagsFromSchema
                         Mock.getNextHopsFromSchema
                         (Mock.instance "route9" "router1")
                         "router1" 0 "" "" "")] |})
    /\ kind failure = Some RemoteCallError.
Proof.
  eapply (Update_not_found Mock.setTagsInSchema Mock.getTagsFromSchema
            Mock.setNextHopsInSchema Mock.getNextHopsFromSchema
            _ _ (Mock.env (Mock.instance "route9" "router1"))
            "router1" 0 "" "" "").
  - reflexivity.
  - discriminate.
  - vm_compute. reflexivity.
  - discriminate.
  - vm_compute. reflexivity.
  - vm_compute. reflexivity.
  - vm_compute. reflexivity.
  - vm_compute. reflexivity.
  - reflexivity.
  - reflexivity.
Defined.

(** Update of route9 when the manager accepts it: the update call, then
    the fetch of the closing Read. *)
Lemma Update_single_call_witness :
  (exists r e' rest,
     Mock.Update
       (Mock.client (Mock.ok Mock.route9) (Mock.ok Mock.route9) (None, None))
       (Mock.env (Mock.instance "route9" "router1")) = (r, e') /\
     calls e' =
       manager.CallUpdateStaticRoute "router1" "route9"
         {| manager.Id := ""; manager.Revision := 0;
            manager.Description := ""; manager.DisplayName := "";
            manager.Tags := [];
            manager.LogicalRouterId := "router1"; manager.Network := "";
            manager.NextHops := [] |}
       :: rest /\
     (rest = [] \/
      exists lr' id', rest = [manager.CallReadStaticRoute lr' id']) /\
     filter (fun call => is_update call = true) (calls e') =
       [manager.CallUpdateStaticRoute "router1" "route9"
         {| manager.Id := ""; manager.Revision := 0;
            manager.Description := ""; manager.DisplayName := "";
            manager.Tags := [];
            manager.LogicalRouterId := "router1"; manager.Network := "";
            manager.NextHops := [] |}])
  /\
  mutable_keys resourceNsxtLicense = ["license_key"; "accept_eula"] /\
  (forall k, k ∈ mutable_keys resourceNsxtLicense ->
     k ∉ ["revision"; "description"; "display_name"; "logical_router_id";
          "network"]) /\
  "description" ∈ computed_keys resourceNsxtLicense.
Proof.
  refine (Update_single_call Mock.setTagsInSchema Mock.getTagsFromSchema
            Mock.setNextHopsInSchema Mock.getNextHopsFromSchema
            (Mock.client (Mock.ok Mock.route9) (Mock.ok Mock.route9)
               (None, None))
            _ (Mock.env (Mock.instance "route9" "router1"))
            "router1" 0 "" "" "" _ _ _ _ _ _ _ _).
  - reflexivity.
  - discriminate.
  - vm_compute. reflexivity.
  - discriminate.
  - vm_compute. reflexivity.
  - vm_compute. reflexivity.
  - vm_compute. reflexivity.
  - vm_compute. reflexivity.
Defined.


(** Read of route9 when the manager returns it: the seven fields hold the
    values of the route, the tags and the next hops in their encoded
    form. *)
Lemma Read_overwrites_witness :
  let m := Mock.client (Mock.ok Mock.route9) (Mock.ok Mock.route9)
             (None, None) in
  let e := Mock.env (Mock.instance "route9" "router1") in
  exists e',
    Mock.Read m e = (Returned None, e') /\
    only_touches (read_keys "tags" "next_hops") (data e) (data e') /\
    values (data e') !! "revision" = Some (VInt 3) /\
    values (data e') !! "description" = Some (VString "to the lab") /\
    values (data e') !! "tags"
      = Some (VList [Mock.encode_tag ("env", "lab")]) /\
    values (data e') !! "next_hops"
      = Some (VList [Mock.encode_hop "10.0.0.1"]) /\
    values (data e') !! "capacity_type" = values (data e) !! "capacity_type".
Proof.
  intros m e.
  assert (tags_keys :
    "tags" ∉ (schema_keys resourceNsxtLicense ++
              (read_scalars Mock.route9).*1)%list) by decide_no.
  assert (hops_keys :
    "next_hops" ∉ (schema_keys resourceNsxtLicense ++
                   (read_scalars Mock.route9).*1)%list) by decide_no.
  assert (not_404 :
    ~ not_found (Some {| http.StatusCode := http.StatusOK |}))
    by (unfold not_found; simpl; discriminate).
  assert (parent : Get "logical_router_id" (data e) = VString "router1")
    by (vm_compute; reflexivity).
  destruct (Read_overwrites Mock.setTagsInSchema Mock.setNextHopsInSchema
              "tags" "next_hops" Mock_tags_frame Mock_next_hops_frame
              m _ e "router1" Mock.route9 _ ()
              eq_refl ltac:(discriminate) parent ltac:(discriminate)
              eq_refl not_404 tags_keys hops_keys ltac:(discriminate))
    as (HR & Hframe & Hscalars & Htags & _ & _ & Hcomputed).
  eexists. split; [exact HR|]. split; [exact Hframe|].
  split; [eapply Hscalars; [in_list|vm_compute; reflexivity|reflexivity]|].
  split; [eapply Hscalars; [in_list|vm_compute; reflexivity|reflexivity]|].
  split; [etrans; [exact Htags|vm_compute; reflexivity]|].
  split; [vm_compute; reflexivity|].
  apply Hcomputed; [decide_yes|discriminate].
Defined.

(** ** Where the code departs from the design document *)

(** Import of the key [a/]: one slash, an empty second component.  The
    key is accepted, and the instance comes back with an empty ID. *)
Lemma Import_accepts_empty_component :
  let m := Mock.client (Mock.ok Mock.route9) (Mock.ok Mock.route9)
             (None, None) in
  let e := Mock.env (SetId "a/" (new_ResourceData Mock.route_schema)) in
  Mock.Import m e =
    (Returned (Some [Mock.instance "" "a"], None),
     Mock.env (Mock.instance "" "a")) /\
  Import_succeeds m e /\
  ~ two_nonempty_components (schema.Id (data e)).
Proof.
  intros m e.
  assert (Mock.Import m e =
    (Returned (Some [Mock.instance "" "a"], None),
     Mock.env (Mock.instance "" "a"))) as H by (vm_compute; reflexivity).
  split_and!; [exact H|by eexists _, _|].
  intros (a & b & Ha & Hb & E). vm_compute in E. congruence.
Qed.

(** Import without a client: the key is split and the instance returned
    all the same. *)
Lemma Import_without_client :
  NsxtClient Mock.no_client = None /\
  Mock.Import Mock.no_client
    (Mock.env (SetId "router1/route9" (new_ResourceData Mock.route_schema))) =
    (Returned (Some [Mock.instance "route9" "router1"], None),
     Mock.env (Mock.instance "route9" "router1")).
Proof. split; [reflexivity|]. vm_compute. reflexivity. Qed.


(** Update on two instances that differ in both fields a caller of the
    licence resource may set: the update call and its payload are the
    same, and the payload carries [description], a computed field. *)
Lemma Update_payload_omits_licence_fields :
  let m := Mock.client (Mock.ok Mock.route9) (Mock.ok Mock.route9)
             (None, None) in
  let d := (Set_ "description" (VString "NSX Data Center Enterprise")
              (Mock.instance "route9" "router1")).1 in
  let d1 := (Set_ "accept_eula" (VBool true)
               (Set_ "license_key" (VString "AAAAA-11111") d).1).1 in
  let d2 := (Set_ "accept_eula" (VBool false)
               (Set_ "license_key" (VString "BBBBB-22222") d).1).1 in
  let payload : Mock.StaticRoute :=
    {| manager.Id := ""; manager.Revision := 0;
       manager.Description := "NSX Data Center Enterprise";
       manager.DisplayName := ""; manager.Tags := [];
       manager.LogicalRouterId := "router1"; manager.Network := "";
       manager.NextHops := [] |} in
  mutable_keys resourceNsxtLicense = ["license_key"; "accept_eula"] /\
  "description" ∈ computed_keys resourceNsxtLicense /\
  Get "license_key" d1 = VString "AAAAA-11111" /\
  Get "license_key" d2 = VString "BBBBB-22222" /\
  Get "accept_eula" d1 = VBool true /\
  Get "accept_eula" d2 = VBool false /\
  calls (Mock.Update m (Mock.env d1)).2 =
    [manager.CallUpdateStaticRoute "router1" "route9" payload;
     manager.CallReadStaticRoute "router1" "route9"] /\
  calls (Mock.Update m (Mock.env d2)).2 =
    [manager.CallUpdateStaticRoute "router1" "route9" payload;
     manager.CallReadStaticRoute "router1" "route9"].
Proof.
  intros m d d1 d2 payload.
  split; [by vm_compute|]. split; [decide_yes|].
  vm_compute. done.
Qed.

(** C3, at the input on which the code fails it: the manager answers the
    delete call by 404 and the client reports the status as an error too,
    as it does for every status of 300 and above.  Delete returns a
    remote-call error and the ID stays, where Read, which looks at the
    status before the error, treats the same reply as absence. *)
Theorem Delete_not_found_reported_as_error :
  let m := Mock.client (Mock.ok Mock.route9) (Mock.ok Mock.route9)
             (Some {| http.StatusCode := http.StatusNotFound |},
              Some "Status: 404 Not Found") in
  let e := Mock.env (Mock.instance "route9" "router1") in
  let failure := Errorf "Error during StaticRoute delete: %v"
                   [AError (Some "Status: 404 Not Found")] in
  Mock.Delete m e =
    (Returned (Some failure),
     {| data := Mock.instance "route9" "router1"; world := ();
        calls := [manager.CallDeleteStaticRoute "router1" "route9"] |}) /\
  kind failure = Some RemoteCallError /\
  schema.Id (data (Mock.Delete m e).2) = "route9".
Proof. intros m e failure. vm_compute. done. Qed.

(** C7, at the input on which the code fails it: both creation calls are
    answered by 200 without error and the manager returns the new route
    with the ID [route9].  Create stores the ID of [staticRoute], the
    request, which is empty; the closing Read then finds no ID, and
    Create returns its error. *)
Theorem Create_ignores_assigned_identity :
  let api := Mock.routing (Mock.ok Mock.route9) (Mock.ok Mock.route9)
               (Mock.ok Mock.route9) (None, None) in
  let m := Mock.client (Mock.ok Mock.route9) (Mock.ok Mock.route9)
             (None, None) in
  let e := Mock.env (Mock.instance "" "router1") in
  manager.AddStaticRoute api "router1" Mock.request () =
    (Mock.ok Mock.route9, ()) /\
  manager.Id Mock.route9 = "route9" /\
  Mock.Create api "router1" Mock.request m e =
    (Returned (Some (Errorf "Error obtaining logical object id" [])),
     {| data := Mock.instance "" "router1"; world := ();
        calls := [manager.CallCreateLicense;
                  manager.CallAddStaticRoute "router1" Mock.request] |}).
Proof. intros api m e. vm_compute. done. Qed.

(** ** The further properties at the concrete instance *)

(** Delete of route9 answered by 500 and no error: a success. *)
Lemma Delete_without_error_witness :
  exists d',
    Mock.Delete
      (Mock.client (Mock.ok Mock.route9) (Mock.ok Mock.route9)
         (Some {| http.StatusCode := 500 |}, None))
      (Mock.env (Mock.instance "route9" "router1")) =
      (Returned None,
       {| data := d'; world := ();
          calls := [manager.CallDeleteStaticRoute "router1" "route9"] |}) /\
    (500 = http.StatusNotFound ->
       d' = SetId "" (Mock.instance "route9" "router1")) /\
    (500 ≠ http.StatusNotFound -> d' = Mock.instance "route9" "router1").
Proof.
  eapply (Delete_without_error _ _
            (Mock.env (Mock.instance "route9" "router1")) "router1"
            {| http.StatusCode := 500 |}).
  - reflexivity.
  - discriminate.
  - vm_compute. reflexivity.
  - discriminate.
  - reflexivity.
Defined.

(** Read of route9 when the fetch fails in transit. *)
Lemma Read_transport_error_witness :
  Mock.Read
    (Mock.client (manager.StaticRoute_zero, None, Some "connection refused")
       (Mock.ok Mock.route9) (None, None))
    (Mock.env (Mock.instance "route9" "router1")) =
    (Returned (Some (Errorf "Error during StaticRoute read: %v"
                       [AError (Some "connection refused")])),
     {| data := Mock.instance "route9" "router1"; world := ();
        calls := [manager.CallReadStaticRoute "router1" "route9"] |}) /\
  kind (Errorf "Error during StaticRoute read: %v"
          [AError (Some "connection refused")]) = Some RemoteCallError.
Proof.
  eapply (Read_transport_error Mock.setTagsInSchema Mock.setNextHopsInSchema
            _ _ (Mock.env (Mock.instance "route9" "router1")) "router1").
  - reflexivity.
  - discriminate.
  - vm_compute. reflexivity.
  - discriminate.
  - reflexivity.
  - unfold not_found. simpl. discriminate.
Defined.

(** Read of route9 on a reply with neither response nor error. *)
Lemma Read_returns_witness :
  exists r e',
    Mock.Read
      (Mock.client (manager.StaticRoute_zero, None, None)
         (Mock.ok Mock.route9) (None, None))
      (Mock.env (Mock.instance "route9" "router1")) = (Returned r, e').
Proof.
  eapply (Read_returns Mock.setTagsInSchema Mock.setNextHopsInSchema
            _ (Mock.env (Mock.instance "route9" "router1")) "router1").
  vm_compute. reflexivity.
Defined.

(** Delete and Update of route9 on such a reply. *)
Lemma nil_response_panics_witness :
  let m := Mock.client (Mock.ok Mock.route9)
             (manager.StaticRoute_zero, None, None) (None, None) in
  let e := Mock.env (Mock.instance "route9" "router1") in
  Mock.Delete m e =
    (Panicked NilDereference,
     {| data := Mock.instance "route9" "router1"; world := ();
        calls := [manager.CallDeleteStaticRoute "router1" "route9"] |}) /\
  Mock.Update m e =
    (Panicked NilDereference,
     {| data := Mock.instance "route9" "router1"; world := ();
        calls := [manager.CallUpdateStaticRoute "router1" "route9"
                    (update_payload Mock.getTagsFromSchema
                       Mock.getNextHopsFromSchema
                       (Mock.instance "route9" "router1")
                       "router1" 0 "" "" "")] |}).
Proof.
  intros m e.
  eapply (nil_response_panics Mock.setTagsInSchema Mock.getTagsFromSchema
            Mock.setNextHopsInSchema Mock.getNextHopsFromSchema
            m _ e "router1" 0 "" "" "").
  - reflexivity.
  - discriminate.
  - vm_compute. reflexivity.
  - discriminate.
  - vm_compute. reflexivity.
  - vm_compute. reflexivity.
  - vm_compute. reflexivity.
  - vm_compute. reflexivity.
  - reflexivity.
  - reflexivity.
Defined.

(** Create when the licence call fails in transit. *)
Lemma Create_transport_error_witness :
  let api := Mock.routing (Mock.ok Mock.route9) (Mock.ok Mock.route9)
               (Mock.ok Mock.route9) (None, None) in
  let m : nsxtClients Mock.Tag Mock.NextHop Mock.License Mock.World :=
    {| NsxtClient := Some
         {| manager.LicensingApi :=
              Mock.licensing ((), None, Some "connection refused");
            manager.LogicalRoutingAndServicesApi := api |} |} in
  let failure :=
    Errorf "Error during StaticRoute create on router %s: %v"
      [AString "router1"; AError (Some "connection refused")] in
  Mock.Create api "router1" Mock.request m
    (Mock.env (Mock.instance "" "router1")) =
    (Returned (Some failure),
     {| data := Mock.instance "" "router1"; world := ();
        calls := [manager.CallCreateLicense;
                  manager.CallAddStaticRoute "router1" Mock.request] |}) /\
  kind failure = Some RemoteCallError.
Proof.
  intros api m failure.
  eapply (Create_transport_error Mock.setTagsInSchema
            Mock.setNextHopsInSchema api "router1" Mock.request m _
            (Mock.env (Mock.instance "" "router1")) "" false).
  - reflexivity.
  - vm_compute. reflexivity.
  - vm_compute. reflexivity.
  - reflexivity.
  - reflexivity.
Defined.

(** Create when the licence call is answered by 500. *)
Lemma Create_unexpected_status_witness :
  let api := Mock.routing (Mock.ok Mock.route9) (Mock.ok Mock.route9)
               (Mock.ok Mock.route9) (None, None) in
  let m : nsxtClients Mock.Tag Mock.NextHop Mock.License Mock.World :=
    {| NsxtClient := Some
         {| manager.LicensingApi := Mock.licensing (Mock.status () 500 None);
            manager.LogicalRoutingAndServicesApi := api |} |} in
  let e := Mock.env (Mock.instance "" "router1") in
  exists failure e',
    Mock.Create api "router1" Mock.request m e
      = (Returned (Some failure), e') /\
    failure = Errorf
      "Unexpected status returned during StaticRoute create on router %s: %v"
      [AString "router1"; AInt 500] /\
    kind failure = Some UnexpectedStatusError /\
    data e' = data e.
Proof.
  intros api m e.
  eapply (Create_unexpected_status Mock.setTagsInSchema
            Mock.setNextHopsInSchema api "router1" Mock.request m _ e
            "" false () {| http.StatusCode := 500 |}).
  - reflexivity.
  - vm_compute. reflexivity.
  - vm_compute. reflexivity.
  - reflexivity.
  - discriminate.
Defined.

(** Create when both creation calls are answered by 200. *)
Lemma Create_stores_witness :
  let api := Mock.routing (Mock.ok Mock.route9) (Mock.ok Mock.route9)
               (Mock.ok Mock.route9) (None, None) in
  let m := Mock.client (Mock.ok Mock.route9) (Mock.ok Mock.route9)
             (None, None) in
  Mock.Create api "router1" Mock.route9 m
    (Mock.env (Mock.instance "" "router1")) =
  Mock.Read m
    {| data := SetId "route9" (Mock.instance "" "router1"); world := ();
       calls := [manager.CallCreateLicense;
                 manager.CallAddStaticRoute "router1" Mock.route9] |}.
Proof.
  intros api m.
  eapply (Create_stores Mock.setTagsInSchema Mock.setNextHopsInSchema
            api "router1" Mock.route9 m _
            (Mock.env (Mock.instance "" "router1")) "" false
            () {| http.StatusCode := 200 |}).
  - reflexivity.
  - vm_compute. reflexivity.
  - vm_compute. reflexivity.
  - reflexivity.
  - reflexivity.
  - reflexivity.
Defined.

(** Update of route9 answered by 500 and no error. *)
Lemma Update_then_Read_witness :
  let m := Mock.client (Mock.ok Mock.route9)
             (Mock.status manager.StaticRoute_zero 500 None) (None, None) in
  Mock.Update m (Mock.env (Mock.instance "route9" "router1")) =
  Mock.Read m
    {| data := Mock.instance "route9" "router1"; world := ();
       calls := [manager.CallUpdateStaticRoute "router1" "route9"
                   (update_payload Mock.getTagsFromSchema
                      Mock.getNextHopsFromSchema
                      (Mock.instance "route9" "router1")
                      "router1" 0 "" "" "")] |}.
Proof.
  intros m.
  eapply (Update_then_Read Mock.setTagsInSchema Mock.getTagsFromSchema
            Mock.setNextHopsInSchema Mock.getNextHopsFromSchema
            m _ (Mock.env (Mock.instance "route9" "router1"))
            "router1" 0 "" "" "" _ {| http.StatusCode := 500 |}).
  - reflexivity.
  - discriminate.
  - vm_compute. reflexivity.
  - discriminate.
  - vm_compute. reflexivity.
  - vm_compute. reflexivity.
  - vm_compute. reflexivity.
  - vm_compute. reflexivity.
  - reflexivity.
  - discriminate.
Defined.

(** Data of the licence schema with an ID. *)
Lemma licence_schema_panics_witness :
  let m := Mock.client (Mock.ok Mock.route9) (Mock.ok Mock.route9)
             (None, None) in
  let e := Mock.env (SetId "licence1" (new_ResourceData resourceNsxtLicense)) in
  Mock.Read m e = (Panicked TypeAssertion, e) /\
  Mock.Update m e = (Panicked TypeAssertion, e) /\
  Mock.Delete m e = (Panicked TypeAssertion, e).
Proof.
  intros m e.
  eapply (licence_schema_panics Mock.setTagsInSchema Mock.getTagsFromSchema
            Mock.setNextHopsInSchema Mock.getNextHopsFromSchema m _ e).
  - reflexivity.
  - reflexivity.
  - discriminate.
Defined.

(** Import of [router1/route9], then Read. *)
Lemma Import_then_Read_witness :
  let m := Mock.client (Mock.ok Mock.route9) (Mock.ok Mock.route9)
             (None, None) in
  let e := Mock.env (SetId "router1/route9"
                       (new_ResourceData Mock.route_schema)) in
  exists d' r e2,
    Mock.Import m e =
      (Returned (Some [d'], None),
       {| data := d'; world := (); calls := [] |}) /\
    schema.Id d' = "route9" /\
    Get "logical_router_id" d' = VString "router1" /\
    Mock.Read m {| data := d'; world := (); calls := [] |}
      = (Returned r, e2) /\
    calls e2 = [manager.CallReadStaticRoute "router1" "route9"].
Proof.
  intros m e.
  eapply (Import_then_Read Mock.setTagsInSchema Mock.setNextHopsInSchema
            m _ e "router1" "route9" Mock.string_field).
  - reflexivity.
  - reflexivity.
  - reflexivity.
  - reflexivity.
  - discriminate.
  - discriminate.
  - vm_compute. reflexivity.
  - reflexivity.
Defined.

(** The error of a Read without ID, and its source. *)
Lemma errors_classified_witness :
  Read_failure Mock.setNextHopsInSchema
    (Mock.client (Mock.ok Mock.route9) (Mock.ok Mock.route9) (None, None))
    (Mock.env (Mock.instance "" "router1"))
    (Errorf "Error obtaining logical object id" []).
Proof.
  pose (m := Mock.client (Mock.ok Mock.route9) (Mock.ok Mock.route9)
               (None, None)).
  pose (e := Mock.env (Mock.instance "" "router1")).
  destruct (errors_classified Mock.setTagsInSchema Mock.getTagsFromSchema
              Mock.setNextHopsInSchema Mock.getNextHopsFromSchema
              (Mock.routing (Mock.ok Mock.route9) (Mock.ok Mock.route9)
                 (Mock.ok Mock.route9) (None, None))
              "router1" Mock.request m e e
              (Errorf "Error obtaining logical object id" [])) as (HR & _).
  apply HR. vm_compute. reflexivity.
Defined.

(** The calls of an Update that is accepted. *)
Lemma remote_calls_bounded_witness :
  let m := Mock.client (Mock.ok Mock.route9) (Mock.ok Mock.route9)
             (None, None) in
  let e := Mock.env (Mock.instance "route9" "router1") in
  exists cs,
    calls (Mock.Update m e).2 = cs /\
    (cs = [] \/ exists lr id body rest,
       cs = manager.CallUpdateStaticRoute lr id body :: rest /\
       (rest = [] \/ exists lr' id',
          rest = [manager.CallReadStaticRoute lr' id'])).
Proof.
  intros m e.
  destruct (remote_calls_bounded Mock.setTagsInSchema Mock.getTagsFromSchema
              Mock.setNextHopsInSchema Mock.getNextHopsFromSchema
              (Mock.routing (Mock.ok Mock.route9) (Mock.ok Mock.route9)
                 (Mock.ok Mock.route9) (None, None))
              "router1" Mock.request m e (Mock.Update m e).2)
    as (_ & _ & _ & HU & _).
  destruct (HU (Mock.Update m e).1) as (cs & E & Hcs).
  { exact (surjective_pairing (Mock.Update m e)). }
  exists cs. split; [exact E|exact Hcs].
Defined.

(** Read of route9 answered by 404, and the entry points after it. *)
Lemma cleared_instance_is_rejected_witness :
  let m := Mock.client (Mock.status manager.StaticRoute_zero 404
                          (Some "Status: 404 Not Found"))
             (Mock.ok Mock.route9) (None, None) in
  let e' := (Mock.Read m (Mock.env (Mock.instance "route9" "router1"))).2 in
  let failure := Errorf "Error obtaining logical object id" [] in
  (Mock.Read m (Mock.env (Mock.instance "route9" "router1"))).1
    = Returned None /\
  Mock.Read m e' = (Returned (Some failure), e') /\
  Mock.Update m e' = (Returned (Some failure), e') /\
  Mock.Delete m e' = (Returned (Some failure), e').
Proof.
  intros m.
  eapply (cleared_instance_is_rejected Mock.setTagsInSchema
            Mock.getTagsFromSchema Mock.setNextHopsInSchema
            Mock.getNextHopsFromSchema m _
            (Mock.env (Mock.instance "route9" "router1")) "router1").
  - reflexivity.
  - discriminate.
  - vm_compute. reflexivity.
  - discriminate.
  - reflexivity.
  - reflexivity.
Defined.
